(** * Universal Ticket Printer: rendering-and-delivery pipeline

    A shallow embedding of the backend of [universal_ticket_printer.py]
    (settings management, text layout, receipt rasterisation, the LaTeX
    engine, the ESC/POS encoder and the delivery dispatcher), followed by
    the properties of the specification that concern it. *)

From Stdlib Require Import ZArith Lia.
From stdpp Require Import base option list gmap strings.

Local Open Scope Z_scope.

(** * Python strings *)

(** A Python [str] is a sequence of Unicode code points. *)
Module PyStr.

Definition pychar : Type := N.
Definition pystr : Type := list pychar.

(** Literals are written as ASCII strings and converted. *)
Definition py (s : string) : pystr :=
  (λ a, N.of_nat (Ascii.nat_of_ascii a)) <$> String.list_ascii_of_string s.

(** [str.isspace] on one code point (CPython's [_PyUnicode_IsWhitespace]);
    this is the separator set of [str.split()] and [str.strip()]. *)
Definition py_isspace (c : pychar) : bool :=
  ((9 <=? c) && (c <=? 13) || (28 <=? c) && (c <=? 32)
   || (c =? 133) || (c =? 160) || (c =? 5760)
   || (8192 <=? c) && (c <=? 8202)
   || (c =? 8232) || (c =? 8233) || (c =? 8239) || (c =? 8287)
   || (c =? 12288))%N.

Definition sp : pychar := 32%N.

(** [s.split()]: maximal runs of non-whitespace characters, in order. *)
Fixpoint py_split (s : pystr) : list pystr :=
  match s with
  | [] => []
  | c :: r =>
      if py_isspace c then py_split r
      else match r with
           | [] => [[c]]
           | c' :: _ =>
               if py_isspace c' then [c] :: py_split r
               else match py_split r with
                    | w :: ws => (c :: w) :: ws
                    | [] => [[c]]
                    end
           end
  end.

(** [sep.join(parts)]. *)
Fixpoint py_join (sep : pystr) (parts : list pystr) : pystr :=
  match parts with
  | [] => []
  | [p] => p
  | p :: rest => p ++ sep ++ py_join sep rest
  end.

(** [s.strip()]: drop leading and trailing whitespace. *)
Fixpoint py_lstrip (s : pystr) : pystr :=
  match s with
  | c :: r => if py_isspace c then py_lstrip r else s
  | [] => []
  end.

Definition py_strip (s : pystr) : pystr :=
  reverse (py_lstrip (reverse (py_lstrip s))).

(** [s[:n]] and [s[-n:]] for a non-negative literal [n]. *)
Definition py_prefix (n : nat) (s : pystr) : pystr := take n s.
Definition py_suffix (n : nat) (s : pystr) : pystr :=
  match n with
  | O => s                     (* s[-0:] is s[0:] *)
  | _ => drop (length s - n) s
  end.

(** Truthiness of a string: non-empty. *)
Definition py_truthy (s : pystr) : bool :=
  match s with [] => false | _ => true end.

(** A word: non-empty and free of whitespace. *)
Definition is_word (w : pystr) : Prop :=
  w ≠ [] ∧ Forall (λ c, py_isspace c = false) w.

End PyStr.
Export PyStr.

(** * Fonts and text measurement *)

(** What the backend reads from a [PIL.ImageFont] object.  The values are
    the integers the code obtains after its [int(...)] conversions. *)
Record Font := {
  has_getlength : bool;             (* older Pillow fonts lack getlength *)
  getlength : pystr → Z;            (* int(font.getlength(text)) *)
  getbbox_right : pystr → Z;        (* int(font.getbbox(text)[2]) *)
  line_height : Z                   (* int((ascent + descent) * LINE_HEIGHT_MULT) *)
}.

Definition _text_len (text : pystr) (font : Font) : Z :=
  if has_getlength font then getlength font text
  else getbbox_right font text.

(** * Text layout engine *)

(** The [for w in words[1:]] loop of [_wrap], with its two variables. *)
Fixpoint wrap_loop (font : Font) (max_px : Z)
    (lines : list pystr) (cur : pystr) (ws : list pystr) : list pystr :=
  match ws with
  | [] => lines ++ [cur]
  | w :: ws' =>
      if _text_len (cur ++ [sp] ++ w) font <=? max_px
      then wrap_loop font max_px lines (cur ++ [sp] ++ w) ws'
      else wrap_loop font max_px (lines ++ [cur]) w ws'
  end.

(** [text] may be [None]: the code reads [(text or "")]. *)
Definition _wrap (text : option pystr) (font : Font) (max_px : Z) : list pystr :=
  match py_split (default [] text) with
  | [] => [[]]
  | w0 :: ws => wrap_loop font max_px [] w0 ws
  end.

(** * Exceptions and effects *)

(** The exception classes the backend raises or catches. *)
Inductive exn :=
| OSError                       (* socket errors, timeouts, refused connections *)
| PermissionError
| FileNotFoundError
| CalledProcessError
| ImportError
| OverflowError
| ValueError
| TypeError
| ZeroDivisionError
| RuntimeError (msg : pystr)
| OtherException (name : string).

(** [isinstance(e, OSError)]: what an [except OSError] clause catches. *)
Definition is_OSError (e : exn) : bool :=
  match e with
  | OSError | PermissionError | FileNotFoundError => true
  | _ => false
  end.

(** [str(e)]: the message of a [RuntimeError]; the other classes are raised
    by libraries and their text is not fixed by the source. *)
Definition exn_str (lib_msg : exn → pystr) (e : exn) : pystr :=
  match e with
  | RuntimeError msg => msg
  | _ => lib_msg e
  end.

Inductive result (A : Type) :=
| Ret (a : A)
| Raise (e : exn).
Arguments Ret {A} a.
Arguments Raise {A} e.

(** * Images *)

(** A mode ["1"] image: [bpx x y] is [true] where the stored pixel is
    non-zero (white, 255) and [false] where it is zero (black). *)
Record Bitmap := {
  bw : Z;
  bh : Z;
  bpx : Z → Z → bool
}.

#[local] Unset Elimination Schemes.

(** Images as the backend builds them: pixel data obtained from outside, a
    white ["L"] canvas with the text and pictures drawn on it, or a
    resampled image. *)
Inductive Image :=
| Mode1 (b : Bitmap)
| Gray (w h : Z) (px : Z → Z → Z)
| Canvas (w h : Z) (ops : list DrawOp)
| Resized (src : Image) (w h : Z)
with DrawOp :=
| DrawText (x y : Z) (s : pystr) (font : Font)
| Paste (src : Image) (x y : Z).

#[local] Set Elimination Schemes.

(** [img.size]. *)
Definition size (img : Image) : Z * Z :=
  match img with
  | Mode1 b => (bw b, bh b)
  | Gray w h _ => (w, h)
  | Canvas w h _ => (w, h)
  | Resized _ w h => (w, h)
  end.

(** * JSON values and the settings dictionary *)

#[local] Unset Elimination Schemes.

(** Values [json.load] produces (numbers restricted to integers, which is
    all the settings use). *)
Inductive json :=
| JNull
| JBool (b : bool)
| JNum (n : Z)
| JStr (s : pystr)
| JArr (items : list json)
| JObj (fields : list (string * json)).

#[local] Set Elimination Schemes.

(** Python truthiness, as tested by [if not ip]. *)
Definition json_truthy (v : json) : bool :=
  match v with
  | JNull => false
  | JBool b => b
  | JNum n => negb (n =? 0)
  | JStr s => py_truthy s
  | JArr items => match items with [] => false | _ => true end
  | JObj fields => match fields with [] => false | _ => true end
  end.

Abbreviation settings := (gmap string json).

Definition DEFAULT_SETTINGS : settings :=
  list_to_map [
    ("bulk_delimiter", JStr (py "::"));
    ("appearance_mode", JStr (py "System"));
    ("color_theme", JStr (py "blue"));
    ("font_family", JStr (py "Poppins"));
    ("printer_ip", JStr (py ""));
    ("mqtt_host", JStr (py ""));
    ("mqtt_port", JNum 8883);
    ("mqtt_user", JStr (py ""));
    ("mqtt_pass", JStr (py ""));
    ("mqtt_topic", JStr (py "Prn20B1B50C2199"));
    ("mqtt_use_tls", JBool true)
  ]%string.

(** [d.get(key, dflt)]. *)
Definition dict_get (d : settings) (key : string) (dflt : json) : json :=
  default dflt (d !! key).

(** [d.update(data)]: every key of [data] is set in [d]. *)
Definition dict_update (d data : settings) : settings := data ∪ d.

(** The settings file on disk. *)
Inductive settings_file :=
| FileAbsent                        (* os.path.exists is False *)
| FileUnreadable                    (* open or json.load raises *)
| FileObject (data : settings).     (* a JSON object *)

(** How the [with open(SETTINGS_FILE, "w")] block of [save_settings] ends. *)
Inductive write_outcome :=
| WriteOk
| OpenRaises (e : exn)              (* open fails: the file is untouched *)
| DumpRaises (e : exn).             (* json.dump fails after truncation *)

(** Process state of the settings module: the global [APP_SETTINGS] and the
    file [SETTINGS_FILE]. *)
Record settings_state := {
  APP_SETTINGS : settings;
  SETTINGS_FILE : settings_file
}.

(** What a call shows to the user. *)
Inductive ui_event :=
| UiPrint (tag : string)
| UiMessageBox (title : string).

Definition load_settings (st : settings_state)
    : settings * settings_state * list ui_event :=
  let defaults := DEFAULT_SETTINGS in
  let '(defaults, log) :=
    match SETTINGS_FILE st with
    | FileAbsent => (defaults, [])
    | FileObject data => (dict_update defaults data, [])
    | FileUnreadable => (defaults, [UiPrint "Error loading settings"])
    end in
  (defaults,
   {| APP_SETTINGS := defaults; SETTINGS_FILE := SETTINGS_FILE st |},
   log).

(** [during_write] is the value of [APP_SETTINGS] at the moment the write
    is attempted; it is what [json.dump] is given. *)
Record save_report := {
  returned : bool;
  during_write : settings;
  shown : list ui_event
}.

Definition save_settings (w : write_outcome) (data : settings)
    (st : settings_state) : save_report * settings_state :=
  let app := dict_update (APP_SETTINGS st) data in
  match w with
  | WriteOk =>
      ({| returned := true; during_write := app; shown := [] |},
       {| APP_SETTINGS := app; SETTINGS_FILE := FileObject app |})
  | OpenRaises e | DumpRaises e =>
      let file :=
        match w with
        | DumpRaises _ => FileUnreadable
        | _ => SETTINGS_FILE st
        end in
      let shown :=
        match e with
        | PermissionError => [UiMessageBox "Save Error"]
        | _ => [UiPrint "Failed to save settings"]
        end in
      ({| returned := false; during_write := app; shown := shown |},
       {| APP_SETTINGS := app; SETTINGS_FILE := file |})
  end.

(** * Protocol encoder *)

(** [n.to_bytes(length, 'little')] for an unsigned conversion. *)
Fixpoint le_bytes (len : nat) (n : Z) : list Z :=
  match len with
  | O => []
  | S k => n mod 256 :: le_bytes k (n / 256)
  end.

Definition to_bytes_little (len : nat) (n : Z) : result (list Z) :=
  if (n <? 0) || (256 ^ Z.of_nat len <=? n) then Raise OverflowError
  else Ret (le_bytes len n).

(** [img.tobytes(encoder_name="raw")] of a mode ["1"] image: rows from top
    to bottom, each padded to whole bytes, eight pixels per byte with the
    leftmost pixel in the most significant bit, a bit set where the pixel
    is non-zero. *)
Definition packed_bit (b : Bitmap) (x y : Z) : Z :=
  if (x <? bw b) && bpx b x y then 1 else 0.

Definition packed_byte (b : Bitmap) (y i : Z) : Z :=
  foldl (λ acc k, 2 * acc + packed_bit b (8 * i + k) y) 0 (seqZ 0 8).

Definition packed_row (b : Bitmap) (y : Z) : list Z :=
  packed_byte b y <$> seqZ 0 ((bw b + 7) / 8).

Definition tobytes (b : Bitmap) : list Z :=
  mjoin (packed_row b <$> seqZ 0 (bh b)).

(** [img.convert("1")]: a copy for an image that is already 1-bit; any
    other image is binarised by Pillow ([dither]). *)
Definition convert_1 (dither : Image → Bitmap) (img : Image) : Bitmap :=
  match img with
  | Mode1 b => b
  | _ => dither img
  end.

Definition raster_header : list Z := [29; 118; 48; 0].   (* GS v 0 0 *)

Definition pil_to_escpos_raster (dither : Image → Bitmap) (img : Image)
    : result (list Z) :=
  let img := convert_1 dither img in
  let w := bw img in
  let h := bh img in
  let w_bytes := (w + 7) / 8 in
  match to_bytes_little 2 w_bytes with
  | Raise e => Raise e
  | Ret wb =>
      match to_bytes_little 2 h with
      | Raise e => Raise e
      | Ret hb =>
          let cmd := raster_header ++ wb ++ hb in
          let data := tobytes img in
          let inverted_data := (λ b, Z.land (Z.lnot b) 255) <$> data in
          Ret (cmd ++ inverted_data)
      end
  end.

(** * Effects: external calls, their log, and exceptions *)

(** The JSON envelope published to the broker.  [data_image] stands for
    the base64 text of the PNG encoding of that image. *)
Record mqtt_payload := {
  ticket_id : pystr;
  ticket_stamp : Z;                 (* the int(timestamp) appended to the id *)
  data_type : pystr;
  data_image : Bitmap;
  cut_paper : Z;
  source : pystr
}.

(** Every call that leaves the process is logged, in order. *)
Inductive event :=
| SockConnect (host : json) (port : Z) (timeout_ms : Z)
| SockSendAll (data : list Z)
| SockClose
| MqttClient (prefix : pystr)
| MqttTlsSet
| MqttUserPw (user pw : json)
| MqttConnect (host port : json) (keepalive : Z)
| MqttPublish (topic : json) (payload : mqtt_payload) (qos : Z)
| MqttLoop (timeout_ms : Z)
| MqttDisconnect
| Mkdtemp
| WriteFile (name : string) (content : pystr)
| RunProcess (cmd : list string)
| ReadLog
| ConvertPdf (dpi : Z)
| Rmtree
| Plot (text : pystr) (line_count : Z)
| Print (what : string).

(** A computation: its result (a value or a raised exception) and the
    external calls it made.  Whether a call into a library returns or
    raises is decided by the environment. *)
Definition M (A : Type) : Type := result A * list event.

#[global] Instance M_ret : MRet M := λ A a, (Ret a, []).

#[global] Instance M_bind : MBind M := λ A B f m,
  match m with
  | (Ret a, t) => let '(r, t') := f a in (r, t ++ t')
  | (Raise e, t) => (Raise e, t)
  end.

Definition raise {A} (e : exn) : M A := (Raise e, []).

Definition lift {A} (r : result A) : M A := (r, []).

Definition emit (ev : event) : M unit := (Ret (), [ev]).

(** An external call whose outcome the environment decides. *)
Definition call (ev : event) (outcome : option exn) : M unit :=
  match outcome with
  | None => (Ret (), [ev])
  | Some e => (Raise e, [ev])
  end.

(** A step inside the process (it is not logged) that may raise. *)
Definition step (outcome : option exn) : M unit :=
  match outcome with
  | None => (Ret (), [])
  | Some e => (Raise e, [])
  end.

(** [try: body except <classes> as e: handler(e)]. *)
Definition try_except {A} (body : M A) (catches : exn → bool)
    (handler : exn → M A) : M A :=
  match body with
  | (Raise e, t) =>
      if catches e then let '(r, t') := handler e in (r, t ++ t')
      else (Raise e, t)
  | done => done
  end.

(** [try: body finally: cleanup], for a cleanup that cannot raise. *)
Definition try_finally {A} (body : M A) (cleanup : list event) : M A :=
  (body.1, body.2 ++ cleanup).

Definition any_Exception (e : exn) : bool := true.

Definition trace {A} (m : M A) : list event := m.2.
Definition outcome {A} (m : M A) : result A := m.1.

(** * Delivery dispatcher *)

Definition PRINTER_PORT : Z := 9100.
Definition LAN_TIMEOUT_ms : Z := 2000.        (* LAN_TIMEOUT = 2.0 seconds *)
Definition PRINT_WIDTH_PX : Z := 576.
Definition MARGIN_T : Z := 28.
Definition MARGIN_B : Z := 40.
Definition MARGIN_L : Z := 18.
Definition MARGIN_R : Z := 18.
Definition TITLE_SIZE : Z := 36.
Definition TEXT_SIZE : Z := 28.
Definition TIME_SIZE : Z := 24.

(** Pillow operations whose result depends on pixel content.  [pil_scale h
    n w] is [int(h * (n / w))], which the code computes in floating point. *)
Record Pillow := {
  pil_dither : Image → Bitmap;              (* convert("L"), then convert("1") *)
  pil_trim : Image → Image;                 (* _trim_whitespace *)
  pil_scale : Z → Z → Z → Z
}.

(** The outside world of the dispatcher. *)
Record NetEnv := {
  now_timestamp : Z;                         (* int(datetime.now().timestamp()) *)
  sock_connect : json → Z → option exn;      (* socket.create_connection *)
  sock_sendall : list Z → option exn;
  sock_close : option exn;
  paho_importable : bool;                    (* import paho.mqtt.client *)
  png_encode : Image → option exn;           (* _apply_dither, save as PNG, base64 *)
  mqtt_client : option exn;                  (* mqtt.Client(client_id=...) *)
  mqtt_tls_set : option exn;                 (* client.tls_set(...) *)
  mqtt_username_pw_set : json → json → option exn;
  mqtt_connect : json → json → option exn;
  mqtt_publish : json → option exn;
  mqtt_loop : option exn;
  mqtt_disconnect : option exn
}.

Definition _apply_dither (pil : Pillow) (img : Image) : Bitmap :=
  pil_dither pil img.

Definition send_lan_image (pil : Pillow) (env : NetEnv) (app : settings)
    (img : Image) (cut : bool) : M bool :=
  let ip := dict_get app "printer_ip" (JStr []) in
  if negb (json_truthy ip) then mret false
  else
    try_except
      (call (SockConnect ip PRINTER_PORT LAN_TIMEOUT_ms)
            (sock_connect env ip PRINTER_PORT);;
       raster ← lift (pil_to_escpos_raster (pil_dither pil) img);
       let commands := [27; 64] ++ raster ++ replicate 4 10 in
       let commands := if cut then commands ++ [29; 86; 0] else commands in
       call (SockSendAll commands) (sock_sendall env commands);;
       call SockClose (sock_close env);;
       mret true)
      is_OSError
      (λ _, mret false).

Definition send_mqtt_image (pil : Pillow) (env : NetEnv) (app : settings)
    (img : Image) (cut : bool) : M bool :=
  let host := dict_get app "mqtt_host" (JStr []) in
  if negb (json_truthy host) then mret false
  else if negb (paho_importable env) then mret false
  else
    let img_final := _apply_dither pil img in
    step (png_encode env img);;
    call (MqttClient (py "Desk-")) (mqtt_client env);;
    (if json_truthy (dict_get app "mqtt_use_tls" (JBool true))
     then call MqttTlsSet (mqtt_tls_set env) else mret ());;
    let user := dict_get app "mqtt_user" (JStr []) in
    let pw := dict_get app "mqtt_pass" (JStr []) in
    (if json_truthy user
     then call (MqttUserPw user pw) (mqtt_username_pw_set env user pw)
     else mret ());;
    try_except
      (let port := dict_get app "mqtt_port" (JNum 8883) in
       call (MqttConnect host port 30) (mqtt_connect env host port);;
       let payload :=
         {| ticket_id := py "desk-";
            ticket_stamp := now_timestamp env;
            data_type := py "png";
            data_image := img_final;
            cut_paper := if cut then 1 else 0;
            source := py "Modern_Desktop" |} in
       let topic := dict_get app "mqtt_topic" (JStr (py "Prn20B1B50C2199")) in
       call (MqttPublish topic payload 2) (mqtt_publish env topic);;
       call (MqttLoop 2000) (mqtt_loop env);;
       call MqttDisconnect (mqtt_disconnect env);;
       mret true)
      any_Exception
      (λ _, emit (Print "MQTT Error");; mret false).

Definition print_master (pil : Pillow) (env : NetEnv) (app : settings)
    (img : Image) (cut : bool) : M pystr :=
  res_lan ← send_lan_image pil env app img cut;
  if res_lan : bool then mret (py "OK (LAN)")
  else
    res_mqtt ← send_mqtt_image pil env app img cut;
    if res_mqtt : bool then mret (py "OK (Cloud)")
    else mret (py "Failed (Check Settings)").

(** * Receipt rasteriser *)

Record DateTime := {
  year : Z; month : Z; day : Z; hour : Z; minute : Z
}.

Definition digit (n : Z) : pychar := Z.to_N (48 + n mod 10).

(** [strftime("%Y-%m-%d %H:%M")] (four-digit years). *)
Definition strftime (d : DateTime) : pystr :=
  [digit (year d / 1000); digit (year d / 100); digit (year d / 10);
   digit (year d)] ++ py "-" ++
  [digit (month d / 10); digit (month d)] ++ py "-" ++
  [digit (day d / 10); digit (day d)] ++ py " " ++
  [digit (hour d / 10); digit (hour d)] ++ py ":" ++
  [digit (minute d / 10); digit (minute d)].

(** The three module-level fonts and the clock. *)
Record RenderEnv := {
  FONT_TITLE : Font;
  FONT_TEXT : Font;
  FONT_TIME : Font;
  now : DateTime
}.

(** [get_lh(font)]. *)
Definition get_lh (font : Font) : Z := line_height font.

(** [for ln in lines: draw.text((MARGIN_L, y), ln, font=font); y += lh]. *)
Definition draw_lines (font : Font) (lh : Z)
    (st : list DrawOp * Z) (lines : list pystr) : list DrawOp * Z :=
  foldl (λ '(ops, y) ln, (ops ++ [DrawText MARGIN_L y ln font], y + lh))
        st lines.

Definition list_truthy {A} (l : list A) : bool :=
  match l with [] => false | _ => true end.

Definition render_receipt_image (env : RenderEnv) (title : option pystr)
    (body_lines : list pystr) (add_dt : bool) : Image :=
  let max_w := PRINT_WIDTH_PX - MARGIN_L - MARGIN_R in
  let wrapped_title :=
    match title with
    | Some t =>
        if py_truthy t && py_truthy (py_strip t)
        then _wrap (Some (py_strip t)) (FONT_TITLE env) max_w
        else []
    | None => []
    end in
  let wrapped_body :=
    foldl (λ acc line, acc ++ _wrap (Some line) (FONT_TEXT env) max_w)
          [] body_lines in
  let time_str := if add_dt then Some (strftime (now env)) else None in
  let time_on := match time_str with Some s => py_truthy s | None => false end in
  let lh_title := get_lh (FONT_TITLE env) in
  let lh_text := get_lh (FONT_TEXT env) in
  let lh_time := get_lh (FONT_TIME env) in
  let h := MARGIN_T in
  let h := if list_truthy wrapped_title
           then h + Z.of_nat (length wrapped_title) * lh_title + 10 else h in
  let h := if time_on then h + lh_time else h in
  let h := if list_truthy wrapped_body
           then h + Z.of_nat (length wrapped_body) * lh_text else h in
  let h := h + MARGIN_B in
  let h := Z.max h 100 in
  let '(ops, y) := draw_lines (FONT_TITLE env) lh_title ([], MARGIN_T) wrapped_title in
  let y := if list_truthy wrapped_title then y + 10 else y in
  let '(ops, y) :=
    match time_str with
    | Some s =>
        if py_truthy s
        then (ops ++ [DrawText MARGIN_L y s (FONT_TIME env)], y + lh_time)
        else (ops, y)
    | None => (ops, y)
    end in
  let '(ops, y) := draw_lines (FONT_TEXT env) lh_text (ops, y) wrapped_body in
  Canvas PRINT_WIDTH_PX h ops.

(** * LaTeX engine *)

(** The document template of [render_with_pdflatex], before and after the
    place where the content is inserted. *)
Definition tex_template_head : pystr := py "
\documentclass[11pt]{article}
\usepackage[utf8]{inputenc}
\usepackage[T1]{fontenc}
\usepackage[ngerman]{babel}
\usepackage{amsmath}
\usepackage{amssymb}
\usepackage{amsfonts}
\usepackage{mathtools}
\usepackage{physics}
\usepackage{siunitx}
\usepackage{bm}
\usepackage{upgreek}
\usepackage{pifont}
\usepackage{graphicx}
\usepackage{enumitem}
\usepackage{geometry}
\usepackage{tikz}          
\usepackage{pgfplots}
\usepackage{circuitikz} 
\usepackage{chemfig}     
\usepackage{listings}    
\usepackage{xcolor}      
\usepackage{booktabs}    
\usepackage{tabularx}    
\usepackage{eurosym}     
\usetikzlibrary{patterns,decorations.pathmorphing,decorations.markings,calc}
\pgfplotsset{compat=1.18}
\geometry{paperwidth=80mm, paperheight=2000mm, left=2mm, right=2mm, top=2mm, bottom=2mm}
\renewcommand{\familydefault}{\sfdefault}
\setlength{\parindent}{0pt}
\setlength{\parskip}{0.5em}
\begin{document}
".

Definition tex_template_tail : pystr := py "
\end{document}
".

(** [s.startswith(p)]. *)
Fixpoint starts_with (p s : pystr) : bool :=
  match p, s with
  | [], _ => true
  | a :: p', b :: s' => (a =? b)%N && starts_with p' s'
  | _ :: _, [] => false
  end.

(** [needle in hay]. *)
Fixpoint py_contains (needle hay : pystr) : bool :=
  starts_with needle hay ||
  match hay with
  | [] => false
  | _ :: r => py_contains needle r
  end.

(** [s.replace(old, new)] and [re.sub] with a literal pattern, for a
    non-empty [old]: leftmost non-overlapping occurrences.  [skip] counts
    the characters of the current occurrence still to pass over. *)
Fixpoint replace_from (old new : pystr) (skip : nat) (s : pystr) : pystr :=
  match s with
  | [] => []
  | c :: r =>
      match skip with
      | S k => replace_from old new k r
      | O =>
          if starts_with old s
          then new ++ replace_from old new (length old - 1) r
          else c :: replace_from old new 0 r
      end
  end.

Definition py_replace (old new s : pystr) : pystr := replace_from old new 0 s.

(** Length of the shortest [.*?\}] at the head of [s]: the characters up to
    the first closing brace, none of them a newline. *)
Fixpoint shortest_to_brace (s : pystr) : option nat :=
  match s with
  | [] => None
  | c :: r =>
      if (c =? 125)%N then Some 1%nat
      else if (c =? 10)%N then None
      else S <$> shortest_to_brace r
  end.

(** Length of the match of [\\section\*?\{.*?\}] at the head of [s]. *)
Definition match_section (s : pystr) : option nat :=
  if starts_with (py "\section") s then
    let r := drop 8 s in
    let '(r, n) := if starts_with (py "*") r then (drop 1 r, 9%nat) else (r, 8%nat) in
    if starts_with (py "{") r
    then (λ k, (n + 1 + k)%nat) <$> shortest_to_brace (drop 1 r)
    else None
  else None.

Fixpoint sub_section_from (new : pystr) (skip : nat) (s : pystr) : pystr :=
  match s with
  | [] => []
  | c :: r =>
      match skip with
      | S k => sub_section_from new k r
      | O =>
          match match_section s with
          | Some n => new ++ sub_section_from new (n - 1) r
          | None => c :: sub_section_from new 0 r
          end
      end
  end.

Definition nl : pystr := [10%N].

(** The textual clean-up of [render_matplotlib_fallback]. *)
Definition clean_markup (latex_code : pystr) : pystr :=
  let clean_code := py_replace (py "$$") (py "$") latex_code in
  let clean_code :=
    sub_section_from (nl ++ py "--- SECTION ---" ++ nl) 0 clean_code in
  let clean_code := py_replace (py "\begin{itemize}") [] clean_code in
  let clean_code := py_replace (py "\end{itemize}") [] clean_code in
  py_replace (py "\item") (nl ++ py " * ") clean_code.

(** [s.count('\n')]. *)
Definition count_newlines (s : pystr) : Z :=
  Z.of_nat (length (filter (λ c, c = 10%N) s)).

(** The outside world of the LaTeX engine.  [pdflatex_run n] is how the
    [n]-th compilation started by one render call ends ([None]: exit
    status zero). *)
Record TexEnv := {
  pdf2image_importable : bool;      (* from pdf2image import convert_from_path *)
  pdf2image_found : bool;           (* importlib.util.find_spec("pdf2image") *)
  pdflatex_version : option exn;    (* subprocess.run(["pdflatex", "--version"]) *)
  which_pdflatex : bool;            (* shutil.which("pdflatex") is not None *)
  mkdtemp : option exn;
  write_tex : option exn;
  pdflatex_run : nat → option exn;
  log_file : option pystr;          (* ticket.log, when it can be read *)
  convert_from_path : result (list Image);
  matplotlib_importable : bool;
  matplotlib_plot : pystr → result Image;
  lib_msg : exn → pystr             (* str(e) of library exceptions *)
}.

Definition _check_pdflatex (env : TexEnv) : M bool :=
  try_except
    (call (RunProcess ["pdflatex"; "--version"]%string) (pdflatex_version env);;
     mret true)
    any_Exception
    (λ _, mret (which_pdflatex env)).

(** The source written to [ticket.tex]. *)
Definition tex_source (latex_code : pystr) : pystr :=
  let is_full_doc :=
    py_contains (py "\begin{document}") latex_code
    || py_contains (py "\section") latex_code in
  let content := latex_code in
  let content :=
    if negb is_full_doc then
      if negb (py_contains (py "\begin{tikzpicture}") content
               || py_contains (py "$$") content
               || py_contains (py "\[") content)
      then py "\[ " ++ content ++ py " \]"
      else content
    else content in
  tex_template_head ++ content ++ tex_template_tail.

Definition pdflatex_cmd : list string :=
  ["pdflatex"; "-interaction=nonstopmode"; "ticket.tex"]%string.

Definition compile_handled (e : exn) : bool :=
  match e with
  | CalledProcessError | FileNotFoundError => true
  | _ => false
  end.

Definition render_with_pdflatex (pil : Pillow) (env : TexEnv)
    (latex_code : pystr) : M Image :=
  if negb (pdf2image_importable env)
  then raise (RuntimeError (py "pdf2image library is missing."))
  else
    let tex_template := tex_source latex_code in
    call Mkdtemp (mkdtemp env);;
    try_finally
      (call (WriteFile "ticket.tex" tex_template) (write_tex env);;
       try_except
         (call (RunProcess pdflatex_cmd) (pdflatex_run env 0))
         compile_handled
         (λ e,
            match e with
            | CalledProcessError =>
                emit ReadLog;;
                let log_content := default (py "No log found.") (log_file env) in
                raise (RuntimeError
                         (py "LaTeX Error. Check syntax." ++ nl
                          ++ py_suffix 500 log_content))
            | _ =>
                raise (RuntimeError
                         (py "LaTeX (pdflatex) not found. Please install MiKTeX or TeX Live."))
            end);;
       images ← (convert_from_path env, [ConvertPdf 203]);
       match images with
       | [] => raise (RuntimeError (py "Could not convert PDF to image."))
       | first :: _ => mret (pil_trim pil first)
       end)
      [Rmtree].

(** [img.resize((w, h), LANCZOS)] to a size other than that of [img]:
    Pillow refuses a target without pixels ("height and width must be
    > 0"). *)
Definition resize (img : Image) (w h : Z) : result Image :=
  if (w <=? 0) || (h <=? 0) then Raise ValueError
  else Ret (Resized img w h).

Definition render_composed_image (pil : Pillow) (source_img : Image)
    : result Image :=
  let '(w, h) := size source_img in
  if negb (w =? PRINT_WIDTH_PX) then
    if w =? 0 then Raise ZeroDivisionError
    else
      let new_h := pil_scale pil h PRINT_WIDTH_PX w in
      match resize source_img PRINT_WIDTH_PX new_h with
      | Ret source_img => Ret (Mode1 (_apply_dither pil source_img))
      | Raise e => Raise e
      end
  else Ret (Mode1 (_apply_dither pil source_img)).

Definition render_matplotlib_fallback (pil : Pillow) (env : TexEnv)
    (renv : RenderEnv) (latex_code title : pystr) (add_dt : bool) : M Image :=
  if negb (matplotlib_importable env)
  then mret (render_receipt_image renv (Some (py "Error"))
               [py "No LaTeX Engine & no Matplotlib found."] false)
  else
    let clean_code := clean_markup latex_code in
    let line_count := count_newlines clean_code + 2 in
    img ← (matplotlib_plot env clean_code, [Plot clean_code line_count]);
    lift (render_composed_image pil img).

Definition render_latex_image (pil : Pillow) (env : TexEnv) (renv : RenderEnv)
    (latex_code title : pystr) (add_dt : bool) : M Image :=
  let has_pdf2image := pdf2image_found env in
  has_pdflatex ← _check_pdflatex env;
  if has_pdf2image && has_pdflatex then
    try_except
      (latex_img ← render_with_pdflatex pil env latex_code;
       let '(w, h) := size latex_img in
       let max_w := PRINT_WIDTH_PX - MARGIN_L - MARGIN_R in
       latex_img ←
         (if max_w <? w
          then lift (resize latex_img max_w (pil_scale pil h max_w w))
          else mret latex_img);
       let header_h := MARGIN_T in
       let header_h := if py_truthy title then header_h + 50 else header_h in
       let header_h := if add_dt then header_h + 30 else header_h in
       let final_h := header_h + (size latex_img).2 + MARGIN_B in
       let current_y := MARGIN_T in
       let '(ops, current_y) :=
         if py_truthy title
         then ([DrawText MARGIN_L current_y title (FONT_TITLE renv)], current_y + 50)
         else ([], current_y) in
       let '(ops, current_y) :=
         if add_dt
         then (ops ++ [DrawText MARGIN_L current_y (strftime (now renv)) (FONT_TIME renv)],
               current_y + 30)
         else (ops, current_y) in
       let x_pos := (PRINT_WIDTH_PX - (size latex_img).1) / 2 in
       mret (Canvas PRINT_WIDTH_PX final_h (ops ++ [Paste latex_img x_pos current_y])))
      any_Exception
      (λ e,
         emit (Print "Latex Error");;
         mret (render_receipt_image renv (Some (py "LaTeX Error"))
                 [py_prefix 300 (exn_str (lib_msg env) e)] false))
  else render_matplotlib_fallback pil env renv latex_code title add_dt.

(** * Inputs used in the examples *)

(** A fixed-pitch font: ten pixels per character. *)
Definition mono10 : Font :=
  {| has_getlength := true;
     getlength := λ s, 10 * Z.of_nat (length s);
     getbbox_right := λ s, 10 * Z.of_nat (length s);
     line_height := 30 |}.

(** ** Vocabulary of the layout properties *)

(** The words of a text, as [_wrap] obtains them. *)
Definition words_of (text : option pystr) : list pystr :=
  py_split (default [] text).

(** A group of consecutive words makes an admissible line when the line
    fits, or when the group is one word that is wider than the limit. *)
Definition line_ok (font : Font) (max_px : Z) (g : list pystr) : Prop :=
  g ≠ [] ∧
  (_text_len (py_join [sp] g) font ≤ max_px
   ∨ ∃ w, g = [w] ∧ max_px < _text_len w font).

(** ** Vocabulary of the rasteriser properties *)

(** A character that leaves a mark: anything but whitespace. *)
Definition ink (c : pychar) : bool := negb (py_isspace c).

(** A title is non-blank when it holds a character that is not whitespace. *)
Definition non_blank (title : option pystr) : bool :=
  match title with
  | Some t => existsb ink t
  | None => false
  end.

(** The canvas height as the specification words it: margins, title block
    with its gap, timestamp line, body lines, with a floor of 100. *)
Definition spec_receipt_height (env : RenderEnv) (title : option pystr)
    (body_lines : list pystr) (add_dt : bool) : Z :=
  let usable := PRINT_WIDTH_PX - MARGIN_L - MARGIN_R in
  let title_lines :=
    Z.of_nat (length (_wrap (py_strip <$> title) (FONT_TITLE env) usable)) in
  let body_count :=
    Z.of_nat (sum_list_with
                (λ line, length (_wrap (Some line) (FONT_TEXT env) usable))
                body_lines) in
  let total :=
    MARGIN_T
    + (if non_blank title
       then title_lines * line_height (FONT_TITLE env) + 10 else 0)
    + (if add_dt then line_height (FONT_TIME env) else 0)
    + body_count * line_height (FONT_TEXT env)
    + MARGIN_B in
  Z.max total 100.

(** ** Vocabulary of the encoder properties *)

(** A little-endian 16-bit field read back. *)
Definition le16 (lo hi : Z) : Z := lo + 256 * hi.

(** The 8x8 image with every pixel black (stored value zero). *)
Definition black8 : Bitmap := {| bw := 8; bh := 8; bpx := λ _ _, false |}.

(** A one-pixel-wide white strip of 65536 rows. *)
Definition strip65536 : Bitmap := {| bw := 1; bh := 65536; bpx := λ _ _, true |}.

(** A stand-in for Pillow's binarisation: same size, all white. *)
Definition blank_dither (img : Image) : Bitmap :=
  {| bw := (size img).1; bh := (size img).2; bpx := λ _ _, true |}.

(** ** Vocabulary of the dispatcher properties *)

Definition FAILED : pystr := py "Failed (Check Settings)".

(** Calls of the local path, and calls (and console output) of the cloud
    path. *)
Definition is_lan_event (ev : event) : bool :=
  match ev with
  | SockConnect _ _ _ | SockSendAll _ | SockClose => true
  | _ => false
  end.

Definition is_cloud_event (ev : event) : bool :=
  match ev with
  | MqttClient _ | MqttTlsSet | MqttUserPw _ _ | MqttConnect _ _ _
  | MqttPublish _ _ _ | MqttLoop _ | MqttDisconnect | Print _ => true
  | _ => false
  end.

Definition printer_ip_of (app : settings) : json :=
  dict_get app "printer_ip" (JStr []).
Definition mqtt_host_of (app : settings) : json :=
  dict_get app "mqtt_host" (JStr []).
Definition mqtt_port_of (app : settings) : json :=
  dict_get app "mqtt_port" (JNum 8883).
Definition mqtt_topic_of (app : settings) : json :=
  dict_get app "mqtt_topic" (JStr (py "Prn20B1B50C2199")).

(** The bytes sent to the printer for an encoded image. *)
Definition lan_commands (raster : list Z) (cut : bool) : list Z :=
  [27; 64] ++ raster ++ replicate 4 10 ++ (if cut then [29; 86; 0] else []).

Definition no_error (o : option exn) : bool :=
  match o with None => true | Some _ => false end.

(** Local delivery succeeds: an address is configured, the connection
    opens, the image encodes, and sending and closing go through. *)
Definition lan_succeeds (pil : Pillow) (env : NetEnv) (app : settings)
    (img : Image) (cut : bool) : bool :=
  json_truthy (printer_ip_of app)
  && no_error (sock_connect env (printer_ip_of app) PRINTER_PORT)
  && match pil_to_escpos_raster (pil_dither pil) img with
     | Ret raster =>
         no_error (sock_sendall env (lan_commands raster cut))
         && no_error (sock_close env)
     | Raise _ => false
     end.

(** Cloud delivery can be attempted: a host is configured and the broker
    client library is present. *)
Definition cloud_available (env : NetEnv) (app : settings) : bool :=
  json_truthy (mqtt_host_of app) && paho_importable env.

(** The client can be constructed and configured: [mqtt.Client],
    [tls_set] (unless TLS is switched off) and [username_pw_set] (for a
    truthy user name) all return. *)
Definition client_setup_ok (env : NetEnv) (app : settings) : bool :=
  no_error (mqtt_client env)
  && (negb (json_truthy (dict_get app "mqtt_use_tls" (JBool true)))
      || no_error (mqtt_tls_set env))
  && (negb (json_truthy (dict_get app "mqtt_user" (JStr [])))
      || no_error (mqtt_username_pw_set env
                     (dict_get app "mqtt_user" (JStr []))
                     (dict_get app "mqtt_pass" (JStr [])))).

(** Connect, publish, loop and disconnect all go through. *)
Definition broker_calls_ok (env : NetEnv) (app : settings) : bool :=
  no_error (mqtt_connect env (mqtt_host_of app) (mqtt_port_of app))
  && no_error (mqtt_publish env (mqtt_topic_of app))
  && no_error (mqtt_loop env)
  && no_error (mqtt_disconnect env).

(** Cloud delivery of an image succeeds: the path is available, the image
    is encoded, the client is set up, and the broker calls go through. *)
Definition cloud_succeeds (env : NetEnv) (app : settings) (img : Image)
    : bool :=
  cloud_available env app
  && no_error (png_encode env img)
  && client_setup_ok env app
  && broker_calls_ok env app.

(** A step of the local path raises [e]: the connection, the encoding of
    the image once connected, the send, or the close. *)
Definition lan_step_raises (pil : Pillow) (env : NetEnv) (app : settings)
    (img : Image) (cut : bool) (e : exn) : Prop :=
  json_truthy (printer_ip_of app) = true
  ∧ (sock_connect env (printer_ip_of app) PRINTER_PORT = Some e
     ∨ (sock_connect env (printer_ip_of app) PRINTER_PORT = None
        ∧ (pil_to_escpos_raster (pil_dither pil) img = Raise e
           ∨ ∃ raster,
               pil_to_escpos_raster (pil_dither pil) img = Ret raster
               ∧ (sock_sendall env (lan_commands raster cut) = Some e
                  ∨ (sock_sendall env (lan_commands raster cut) = None
                     ∧ sock_close env = Some e))))).

(** Local delivery is unavailable: it is skipped for want of an address,
    or one of its steps fails with a socket-level error. *)
Definition lan_unavailable (pil : Pillow) (env : NetEnv) (app : settings)
    (img : Image) (cut : bool) : Prop :=
  json_truthy (printer_ip_of app) = false
  ∨ ∃ e, lan_step_raises pil env app img cut e ∧ is_OSError e = true.

(** One of the calls that the cloud path makes before its [try] block
    raises [e]: the encoding of the image, the construction of the client,
    [tls_set] or [username_pw_set]. *)
Definition cloud_setup_raises (env : NetEnv) (app : settings) (img : Image)
    (e : exn) : Prop :=
  cloud_available env app = true
  ∧ (png_encode env img = Some e
     ∨ (png_encode env img = None
        ∧ (mqtt_client env = Some e
           ∨ (mqtt_client env = None
              ∧ ((json_truthy (dict_get app "mqtt_use_tls" (JBool true)) = true
                  ∧ mqtt_tls_set env = Some e)
                 ∨ ((json_truthy (dict_get app "mqtt_use_tls" (JBool true))
                       = false
                     ∨ mqtt_tls_set env = None)
                    ∧ json_truthy (dict_get app "mqtt_user" (JStr [])) = true
                    ∧ mqtt_username_pw_set env
                        (dict_get app "mqtt_user" (JStr []))
                        (dict_get app "mqtt_pass" (JStr [])) = Some e)))))).

(** Socket calls fail, when they fail, with a socket-level error. *)
Definition socket_errors_only (env : NetEnv) (app : settings) : Prop :=
  ∀ e,
    sock_connect env (printer_ip_of app) PRINTER_PORT = Some e
    ∨ (∃ data, sock_sendall env data = Some e)
    ∨ sock_close env = Some e →
    is_OSError e = true.

(** ** Environments of the examples *)

Definition plain_pillow : Pillow :=
  {| pil_dither := blank_dither; pil_trim := λ img, img;
     pil_scale := λ h n w, h * n / w |}.

(** Printer and broker both reachable. *)
Definition net_up : NetEnv :=
  {| now_timestamp := 1793700000;
     sock_connect := λ _ _, None;
     sock_sendall := λ _, None;
     sock_close := None;
     paho_importable := true;
     png_encode := λ _, None;
     mqtt_client := None;
     mqtt_tls_set := None;
     mqtt_username_pw_set := λ _ _, None;
     mqtt_connect := λ _ _, None;
     mqtt_publish := λ _, None;
     mqtt_loop := None;
     mqtt_disconnect := None |}.

(** Settings with a printer address and a broker host. *)
Definition both_configured : settings :=
  <["printer_ip" := JStr (py "192.168.1.50")]>
    (<["mqtt_host" := JStr (py "broker.example.org")]> DEFAULT_SETTINGS).



(** The user name of the broker is the number 5 in the settings file. *)
Definition numeric_user : settings :=
  <["mqtt_user" := JNum 5]> both_configured.

(** Printer unreachable; the client library encodes the user name and so
    raises [AttributeError] for one that is not a string. *)
Definition net_strict_client : NetEnv :=
  {| now_timestamp := 1793700000;
     sock_connect := λ _ _, Some OSError;
     sock_sendall := λ _, None;
     sock_close := None;
     paho_importable := true;
     png_encode := λ _, None;
     mqtt_client := None;
     mqtt_tls_set := None;
     mqtt_username_pw_set :=
       λ user _, match user with
                 | JStr _ => None
                 | _ => Some (OtherException "AttributeError")
                 end;
     mqtt_connect := λ _ _, None;
     mqtt_publish := λ _, None;
     mqtt_loop := None;
     mqtt_disconnect := None |}.

(** ** Vocabulary of the settings properties *)

(** The keys the specification lists as recognised. *)
Definition recognized_keys : list string :=
  ["bulk_delimiter"; "appearance_mode"; "color_theme"; "font_family";
   "printer_ip"; "mqtt_host"; "mqtt_port"; "mqtt_user"; "mqtt_pass";
   "mqtt_topic"; "mqtt_use_tls"]%string.

(** A settings file with one key the application does not know. *)
Definition file_with_unknown_key : settings_state :=
  {| APP_SETTINGS := ∅;
     SETTINGS_FILE :=
       FileObject (<["paper_width" := JNum 58]>
                     {["printer_ip" := JStr (py "10.0.0.7")]}) |}.

Definition new_printer_ip : settings :=
  {["printer_ip" := JStr (py "10.0.0.7")]}.

(** ** Vocabulary of the LaTeX engine properties *)

(** The result of [_check_pdflatex]. *)
Definition compiler_present (env : TexEnv) : bool :=
  match pdflatex_version env with
  | None => true
  | Some _ => which_pdflatex env
  end.

Definition toolchain_present (env : TexEnv) : bool :=
  pdf2image_found env && compiler_present env.

(** The error receipt of [render_latex_image]. *)
Definition latex_error_receipt (env : TexEnv) (renv : RenderEnv) (e : exn)
    : Image :=
  render_receipt_image renv (Some (py "LaTeX Error"))
    [py_prefix 300 (exn_str (lib_msg env) e)] false.


(** The message of a failed compilation. *)
Definition compile_error_message (env : TexEnv) : pystr :=
  py "LaTeX Error. Check syntax." ++ nl
  ++ py_suffix 500 (default (py "No log found.") (log_file env)).

(** Commands that start the given program. *)
Definition runs_program (prog : string) (ev : event) : bool :=
  match ev with
  | RunProcess (p :: _) => bool_decide (p = prog)
  | _ => false
  end.

(** ** Environments of the LaTeX examples *)

Definition clock_example : RenderEnv :=
  {| FONT_TITLE := mono10; FONT_TEXT := mono10; FONT_TIME := mono10;
     now := {| year := 2026; month := 11; day := 3; hour := 9; minute := 5 |} |}.

Definition gray_page : Image := Gray 400 120 (λ _ _, 255).

(** The first compilation stops on a missing style file; a second one
    would succeed. *)
Definition tex_missing_package : TexEnv :=
  {| pdf2image_importable := true;
     pdf2image_found := true;
     pdflatex_version := None;
     which_pdflatex := true;
     mkdtemp := None;
     write_tex := None;
     pdflatex_run := λ n, match n with O => Some CalledProcessError | _ => None end;
     log_file := Some (py "! LaTeX Error: File `tcolorbox.sty' not found");
     convert_from_path := Ret [gray_page];
     matplotlib_importable := true;
     matplotlib_plot := λ _, Ret gray_page;
     lib_msg := λ _, py "error" |}.


(** ** Vocabulary of the further layout properties *)

(** Every line break is forced: the first word of a line, appended to the
    line before it, would exceed the limit. *)
Fixpoint breaks_forced (font : Font) (max_px : Z)
    (groups : list (list pystr)) : Prop :=
  match groups with
  | [] => True
  | g :: rest =>
      match rest with
      | (w :: _) :: _ =>
          max_px < _text_len (py_join [sp] g ++ [sp] ++ w) font
      | _ => True
      end
      ∧ breaks_forced font max_px rest
  end.

(** Lines drawn one below the other from height [y], [lh] apart. *)
Definition stacked (font : Font) (lh y : Z) (lines : list pystr)
    : list DrawOp :=
  imap (λ i ln, DrawText MARGIN_L (y + Z.of_nat i * lh) ln font) lines.

(** The title lines of a receipt. *)
Definition title_lines (env : RenderEnv) (title : option pystr) : list pystr :=
  if non_blank title
  then _wrap (py_strip <$> title) (FONT_TITLE env)
         (PRINT_WIDTH_PX - MARGIN_L - MARGIN_R)
  else [].

(** The body lines of a receipt. *)
Definition body_lines_of (env : RenderEnv) (body_lines : list pystr)
    : list pystr :=
  body_lines ≫= λ line,
    _wrap (Some line) (FONT_TEXT env) (PRINT_WIDTH_PX - MARGIN_L - MARGIN_R).

(** The text of a drawing operation. *)
Definition drawn_text (op : DrawOp) : option pystr :=
  match op with
  | DrawText _ _ s _ => Some s
  | Paste _ _ _ => None
  end.

(** A drawing operation is a text line at the left margin that lies
    between the top margin and the bottom margin of a canvas of height
    [h]. *)
Definition text_within (h : Z) (op : DrawOp) : Prop :=
  match op with
  | DrawText x y _ font =>
      x = MARGIN_L ∧ MARGIN_T ≤ y ∧ y + line_height font ≤ h - MARGIN_B
  | Paste _ _ _ => False
  end.

(** ** Vocabulary of the further encoder properties *)

(** Reading a raster command back: the two header fields, and whether the
    dot at column [x] of row [y] is set. *)
Definition raster_dims (cmd : list Z) : option (Z * Z) :=
  match cmd with
  | 29 :: 118 :: 48 :: 0 :: xl :: xh :: yl :: yh :: _ =>
      Some (le16 xl xh, le16 yl yh)
  | _ => None
  end.

Definition raster_dot (cmd : list Z) (x y : Z) : bool :=
  match raster_dims cmd with
  | Some (w_bytes, _) =>
      match drop 8 cmd !! Z.to_nat (y * w_bytes + x / 8) with
      | Some v => Z.testbit v (7 - x mod 8)
      | None => false
      end
  | None => false
  end.

(** * Batch printing *)

(** The line boundaries of [str.splitlines()]. *)
Definition py_islinebreak (c : pychar) : bool :=
  ((10 <=? c) && (c <=? 13) || (28 <=? c) && (c <=? 30)
   || (c =? 133) || (c =? 8232) || (c =? 8233))%N.

(** [s.splitlines()]: [cur] holds the current line, last character first.
    A carriage return followed by a line feed is one boundary; a final
    boundary does not open a further line. *)
Fixpoint splitlines_from (cur s : pystr) : list pystr :=
  match s with
  | [] => match cur with [] => [] | _ => [reverse cur] end
  | c :: r =>
      if py_islinebreak c then
        reverse cur ::
        (if (c =? 13)%N then
           match r with
           | c' :: r' =>
               if (c' =? 10)%N then splitlines_from [] r'
               else splitlines_from [] r
           | [] => splitlines_from [] r
           end
         else splitlines_from [] r)
      else splitlines_from (c :: cur) r
  end.

Definition py_splitlines (s : pystr) : list pystr := splitlines_from [] s.

(** The two parts of [s.split(delim, 1)] for a non-empty [delim] that
    occurs in [s]: the text before and the text after its first
    occurrence. *)
Fixpoint split_first (delim s : pystr) : option (pystr * pystr) :=
  if starts_with delim s then Some ([], drop (length delim) s)
  else
    match s with
    | [] => None
    | c :: r =>
        match split_first delim r with
        | Some (t, b) => Some (c :: t, b)
        | None => None
        end
    end.

(** [str(n)] for a natural number. *)
Fixpoint uint_digits (u : Decimal.uint) : pystr :=
  match u with
  | Decimal.Nil => []
  | Decimal.D0 u => 48%N :: uint_digits u
  | Decimal.D1 u => 49%N :: uint_digits u
  | Decimal.D2 u => 50%N :: uint_digits u
  | Decimal.D3 u => 51%N :: uint_digits u
  | Decimal.D4 u => 52%N :: uint_digits u
  | Decimal.D5 u => 53%N :: uint_digits u
  | Decimal.D6 u => 54%N :: uint_digits u
  | Decimal.D7 u => 55%N :: uint_digits u
  | Decimal.D8 u => 56%N :: uint_digits u
  | Decimal.D9 u => 57%N :: uint_digits u
  end.

Definition py_str_nat (n : nat) : pystr := uint_digits (Nat.to_uint n).

(** Title and body of the ticket that [do_bulk_print] makes of one
    non-blank line.  The delimiter is the value of the setting
    [bulk_delimiter]; [delimiter in ln] needs it to be a string, and
    [ln.split(delimiter, 1)] needs it to be non-empty. *)
Definition bulk_ticket (delimiter : json) (ln : pystr)
    : result (pystr * list pystr) :=
  match delimiter with
  | JStr d =>
      if py_contains d ln then
        match d with
        | [] => Raise ValueError
        | _ =>
            match split_first d ln with
            | Some (t, b) => Ret (py_strip t, [py_strip b])
            | None => Raise ValueError
            end
        end
      else Ret (py_strip ln, [[]])
  | _ => Raise TypeError
  end.

(** The loop of the task of [do_bulk_print].  [k] counts the tickets made
    so far: the [k]-th ticket meets the network and the clock in the
    state [net k] and [renv k]. *)
Fixpoint bulk_loop (pil : Pillow) (net : nat → NetEnv) (app : settings)
    (renv : nat → RenderEnv) (delimiter : json) (use_dt do_cut : bool)
    (lines : list pystr) (k count : nat) : M nat :=
  match lines with
  | [] => mret count
  | ln :: rest =>
      if negb (py_truthy (py_strip ln))
      then bulk_loop pil net app renv delimiter use_dt do_cut rest k count
      else
        ticket ← lift (bulk_ticket delimiter ln);
        let img := render_receipt_image (renv k) (Some ticket.1) ticket.2 use_dt in
        res ← print_master pil (net k) app img do_cut;
        bulk_loop pil net app renv delimiter use_dt do_cut rest (S k)
          (if py_contains (py "OK") res then S count else count)
  end.

Definition bulk_task (pil : Pillow) (net : nat → NetEnv) (app : settings)
    (renv : nat → RenderEnv) (delimiter : json) (use_dt do_cut : bool)
    (raw : pystr) : M pystr :=
  let lines := py_splitlines raw in
  count ← bulk_loop pil net app renv delimiter use_dt do_cut lines 0 0;
  mret (py "Bulk: " ++ py_str_nat count ++ py "/"
        ++ py_str_nat (length lines) ++ py " printed").

(** The loop of the task of [do_img_print]; [opened] holds, for each
    selected path, what [Image.open] gives.  The bare [except] discards
    every exception of an iteration. *)
Fixpoint img_loop (pil : Pillow) (net : nat → NetEnv) (app : settings)
    (opened : list (result Image)) (k count : nat) : M nat :=
  match opened with
  | [] => mret count
  | p :: rest =>
      counted ←
        try_except
          (source ← lift p;
           img ← lift (render_composed_image pil source);
           res ← print_master pil (net k) app img true;
           mret (if py_contains (py "OK") res then S count else count))
          any_Exception
          (λ _, mret count);
      img_loop pil net app rest (S k) counted
  end.

Definition img_task (pil : Pillow) (net : nat → NetEnv) (app : settings)
    (opened : list (result Image)) : M pystr :=
  count ← img_loop pil net app opened 0 0;
  mret (py_str_nat count ++ py " images printed").

(** * Manual cut *)

(** The command-only envelope of a manual cut. *)
Record cut_payload := {
  cut_ticket_id : pystr;
  cut_data_type : pystr;
  cut_cut_paper : Z
}.

(** The calls of a manual cut: those of the local path, the broker calls
    shared with the image path, and the publication of the command. *)
Inductive cut_event :=
| CutCall (ev : event)
| CutPublish (topic : json) (payload : cut_payload) (qos : Z).

(** [Image.new("1", (1, 1))]: one pixel, filled with zero. *)
Definition one_pixel : Image :=
  Mode1 {| bw := 1; bh := 1; bpx := λ _ _, false |}.

(** A [try] block with a bare [except] that returns [False]: the calls
    are made in order up to the first one that raises; the block gives
    [True] when all of them return. *)
Fixpoint guarded_calls (calls : list (cut_event * option exn))
    : bool * list cut_event :=
  match calls with
  | [] => (true, [])
  | (ev, None) :: rest =>
      let '(ok, made) := guarded_calls rest in (ok, ev :: made)
  | (ev, Some _) :: _ => (false, [ev])
  end.

(** The calls in the [try] block of the cloud path of [send_manual_cut],
    each with what the environment makes of it. *)
Definition manual_cut_calls (env : NetEnv) (app : settings) (host : json)
    : list (cut_event * option exn) :=
  let user := dict_get app "mqtt_user" (JStr []) in
  let pw := dict_get app "mqtt_pass" (JStr []) in
  let port := dict_get app "mqtt_port" (JNum 8883) in
  let payload :=
    {| cut_ticket_id := py "cut-only";
       cut_data_type := py "cmd";
       cut_cut_paper := 1 |} in
  let topic := dict_get app "mqtt_topic" (JStr (py "Prn20B1B50C2199")) in
  [(CutCall (MqttClient (py "Cut-")), mqtt_client env)]
  ++ (if json_truthy (dict_get app "mqtt_use_tls" (JBool true))
      then [(CutCall MqttTlsSet, mqtt_tls_set env)] else [])
  ++ (if json_truthy user
      then [(CutCall (MqttUserPw user pw), mqtt_username_pw_set env user pw)]
      else [])
  ++ [(CutCall (MqttConnect host port 30), mqtt_connect env host port);
      (CutPublish topic payload 2, mqtt_publish env topic);
      (CutCall (MqttLoop 2000), mqtt_loop env);
      (CutCall MqttDisconnect, mqtt_disconnect env)].

(** The [try] block of the cloud path of [send_manual_cut]: the import of
    the client library and the calls. *)
Definition manual_cut_cloud (env : NetEnv) (app : settings) (host : json)
    : bool * list cut_event :=
  if negb (paho_importable env) then (false, [])
  else guarded_calls (manual_cut_calls env app host).

Definition send_manual_cut (pil : Pillow) (env : NetEnv) (app : settings)
    : result bool * list cut_event :=
  let '(res_lan, calls) := send_lan_image pil env app one_pixel true in
  let calls := CutCall <$> calls in
  match res_lan with
  | Raise e => (Raise e, calls)
  | Ret true => (Ret true, calls)
  | Ret false =>
      let host := dict_get app "mqtt_host" (JStr []) in
      if negb (json_truthy host) then (Ret false, calls)
      else
        let '(ok, cloud_calls) := manual_cut_cloud env app host in
        (Ret ok, calls ++ cloud_calls)
  end.

(** ** Vocabulary of the further dispatcher properties *)

(** The calls of a complete local delivery. *)
Definition lan_script (pil : Pillow) (app : settings) (img : Image)
    (cut : bool) : list event :=
  SockConnect (printer_ip_of app) PRINTER_PORT LAN_TIMEOUT_ms ::
  match pil_to_escpos_raster (pil_dither pil) img with
  | Ret raster => [SockSendAll (lan_commands raster cut); SockClose]
  | Raise _ => []
  end.

(** The envelope published for an image. *)
Definition cloud_payload (pil : Pillow) (env : NetEnv) (img : Image)
    (cut : bool) : mqtt_payload :=
  {| ticket_id := py "desk-";
     ticket_stamp := now_timestamp env;
     data_type := py "png";
     data_image := pil_dither pil img;
     cut_paper := if cut then 1 else 0;
     source := py "Modern_Desktop" |}.

(** The broker calls of a complete cloud delivery, after the client has
    been set up. *)
Definition cloud_script (pil : Pillow) (env : NetEnv) (app : settings)
    (img : Image) (cut : bool) : list event :=
  [MqttConnect (mqtt_host_of app) (mqtt_port_of app) 30;
   MqttPublish (mqtt_topic_of app) (cloud_payload pil env img cut) 2;
   MqttLoop 2000;
   MqttDisconnect].

(** The calls that construct and configure the broker client of the
    image path: TLS unless switched off, credentials for a truthy user
    name. *)
Definition client_setup_calls (app : settings) : list event :=
  [MqttClient (py "Desk-")]
  ++ (if json_truthy (dict_get app "mqtt_use_tls" (JBool true))
      then [MqttTlsSet] else [])
  ++ (if json_truthy (dict_get app "mqtt_user" (JStr []))
      then [MqttUserPw (dict_get app "mqtt_user" (JStr []))
              (dict_get app "mqtt_pass" (JStr []))]
      else []).

(** The bytes a manual cut sends to the printer: initialisation, a raster
    of one row holding the byte 255, four line feeds, the cut command. *)
Definition manual_cut_bytes : list Z :=
  [27; 64; 29; 118; 48; 0; 1; 0; 1; 0; 255; 10; 10; 10; 10; 29; 86; 0].

(** A manual cut over the local path goes through. *)
Definition lan_cut_succeeds (env : NetEnv) (app : settings) : bool :=
  json_truthy (printer_ip_of app)
  && no_error (sock_connect env (printer_ip_of app) PRINTER_PORT)
  && no_error (sock_sendall env manual_cut_bytes)
  && no_error (sock_close env).

(** The cloud command of a manual cut goes through: the path is
    available, the client is set up, and the broker calls succeed. *)
Definition cut_cloud_succeeds (env : NetEnv) (app : settings) : bool :=
  cloud_available env app
  && client_setup_ok env app
  && broker_calls_ok env app.

(** ** Vocabulary of the further LaTeX engine properties *)

(** A call of [subprocess.run]. *)
Definition is_subprocess_run (ev : event) : bool :=
  match ev with
  | RunProcess _ => true
  | _ => false
  end.

(** A call of [convert_from_path]. *)
Definition is_conversion (ev : event) : bool :=
  match ev with
  | ConvertPdf _ => true
  | _ => false
  end.

(** When [render_composed_image] raises: the division by a width of zero,
    or the resize to a height that is not positive. *)
Definition composed_raises (pil : Pillow) (img : Image) (e : exn) : Prop :=
  ((size img).1 = 0 ∧ e = ZeroDivisionError)
  ∨ ((size img).1 ≠ 0 ∧ (size img).1 ≠ PRINT_WIDTH_PX
     ∧ pil_scale pil (size img).2 PRINT_WIDTH_PX (size img).1 ≤ 0
     ∧ e = ValueError).

(** The messages [render_with_pdflatex] itself words. *)
Definition MSG_NO_PDF2IMAGE : pystr := py "pdf2image library is missing.".
Definition MSG_NO_PDFLATEX : pystr :=
  py "LaTeX (pdflatex) not found. Please install MiKTeX or TeX Live.".
Definition MSG_NO_PAGE : pystr := py "Could not convert PDF to image.".

(** An exception that the environment raised in one of the external calls
    of [render_with_pdflatex]. *)
Definition raised_outside (env : TexEnv) (e : exn) : Prop :=
  mkdtemp env = Some e
  ∨ write_tex env = Some e
  ∨ pdflatex_run env 0 = Some e
  ∨ convert_from_path env = Raise e.

(** An installation where the page compiles and converts. *)
Definition tex_ok : TexEnv :=
  {| pdf2image_importable := true;
     pdf2image_found := true;
     pdflatex_version := None;
     which_pdflatex := true;
     mkdtemp := None;
     write_tex := None;
     pdflatex_run := λ _, None;
     log_file := None;
     convert_from_path := Ret [gray_page];
     matplotlib_importable := true;
     matplotlib_plot := λ _, Ret gray_page;
     lib_msg := λ _, py "error" |}.

(** ** Vocabulary of the batch printing properties *)

(** The lines of a batch that make a ticket. *)
Definition ticket_lines (lines : list pystr) : list pystr :=
  filter (λ ln, py_truthy (py_strip ln) = true) lines.

(** The status text of a batch. *)
Definition bulk_report (count total : nat) : pystr :=
  py "Bulk: " ++ py_str_nat count ++ py "/" ++ py_str_nat total
  ++ py " printed".

Definition img_report (count : nat) : pystr :=
  py_str_nat count ++ py " images printed".

(* ================================================================== *)
(** * Properties *)
(* ================================================================== *)

(** ** Splitting and joining *)

Section Words.

Implicit Types (c : pychar) (s w : pystr) (ws : list pystr).

Lemma py_split_space c s :
  py_isspace c = true → py_split (c :: s) = py_split s.
Proof. intros Hc. simpl. by rewrite Hc. Qed.

Lemma is_word_cons c w :
  py_isspace c = false → is_word w → is_word (c :: w).
Proof. intros Hc [_ Hw]. split; [done | by constructor]. Qed.

Lemma is_word_single c : py_isspace c = false → is_word [c].
Proof. intros Hc. split; [done | by repeat constructor]. Qed.

(** Every element of [s.split()] is a word. *)
Lemma py_split_words s : Forall is_word (py_split s).
Proof.
  induction s as [|c r IH]; [constructor|].
  simpl. destruct (py_isspace c) eqn:Hc; [done|].
  destruct r as [|c' r'].
  { constructor; [by apply is_word_single | constructor]. }
  destruct (py_isspace c') eqn:Hc'.
  - constructor; [by apply is_word_single | done].
  - destruct (py_split (c' :: r')) as [|w ws] eqn:Hs.
    + constructor; [by apply is_word_single | constructor].
    + inversion IH; subst. constructor; [by apply is_word_cons | done].
Qed.

(** A word followed by a space splits off as the first element. *)
Lemma py_split_word_space w s :
  is_word w → py_split (w ++ sp :: s) = w :: py_split s.
Proof.
  intros [Hne Hw]. induction w as [|c w IH]; [done|].
  inversion Hw as [|? ? Hc Hw']; subst.
  destruct w as [|c' w'].
  - simpl. by rewrite Hc.
  - inversion Hw' as [|? ? Hc' _]; subst.
    change ((c :: c' :: w') ++ sp :: s) with (c :: (c' :: w') ++ sp :: s).
    assert (IH' := IH ltac:(done) Hw').
    simpl in *. rewrite Hc, Hc'. rewrite Hc' in IH'. by rewrite IH'.
Qed.

Lemma py_split_word w : is_word w → py_split w = [w].
Proof.
  intros [Hne Hw]. induction w as [|c w IH]; [done|].
  inversion Hw as [|? ? Hc Hw']; subst.
  destruct w as [|c' w']; [simpl; by rewrite Hc|].
  inversion Hw' as [|? ? Hc' _]; subst.
  assert (IH' := IH ltac:(done) Hw').
  simpl in *. rewrite Hc, Hc'. rewrite Hc' in IH'. by rewrite IH'.
Qed.

Lemma py_join_cons sep w ws :
  ws ≠ [] → py_join sep (w :: ws) = w ++ sep ++ py_join sep ws.
Proof. by destruct ws. Qed.

Lemma py_join_app sep (l1 l2 : list pystr) :
  l1 ≠ [] → l2 ≠ [] →
  py_join sep (l1 ++ l2) = py_join sep l1 ++ sep ++ py_join sep l2.
Proof.
  intros H1 H2. induction l1 as [|a l1 IH]; [done|].
  destruct l1 as [|b l1].
  - simpl app at 1. by rewrite py_join_cons.
  - change ((a :: b :: l1) ++ l2) with (a :: (b :: l1) ++ l2).
    rewrite py_join_cons by done. rewrite IH by done.
    rewrite (py_join_cons sep a (b :: l1)) by done.
    by rewrite <- !app_assoc.
Qed.

(** Joining words with single spaces and splitting again is the identity. *)
Lemma py_split_join ws :
  Forall is_word ws → py_split (py_join [sp] ws) = ws.
Proof.
  induction 1 as [|w ws Hw Hws IH]; [done|].
  destruct ws as [|w' ws'].
  - by apply py_split_word.
  - rewrite py_join_cons by done.
    change ([sp] ++ ?x) with (sp :: x).
    rewrite py_split_word_space by done. by rewrite IH.
Qed.

(** Joining the joined groups is joining all their words. *)
Lemma py_join_groups sep (groups : list (list pystr)) :
  Forall (λ g, g ≠ []) groups →
  py_join sep (py_join sep <$> groups) = py_join sep (mjoin groups).
Proof.
  induction 1 as [|g groups Hg Hgs IH]; [done|].
  destruct groups as [|g' groups'].
  - simpl. by rewrite app_nil_r.
  - rewrite fmap_cons. rewrite py_join_cons by done.
    rewrite IH. simpl mjoin at 2.
    rewrite py_join_app; [done | done |].
    inversion Hgs; subst. simpl. by destruct g'.
Qed.

End Words.

(** ** Text layout engine *)

Section Wrap.

Variables (font : Font) (max_px : Z).

Lemma line_ok_intro (g : list pystr) :
  g ≠ [] →
  _text_len (py_join [sp] g) font ≤ max_px ∨ (∃ w, g = [w]) →
  line_ok font max_px g.
Proof.
  intros Hne [Hfit | [w ->]]; (split; [done|]); [by left|].
  destruct (Z_le_gt_dec (_text_len w font) max_px); [by left|].
  right. exists w. split; [done | lia].
Qed.

(** The loop cuts the remaining words into consecutive groups, the first
    of which continues the current line. *)
Lemma wrap_loop_groups (ws : list pystr) :
  ∀ (lines : list pystr) (g : list pystr),
    g ≠ [] →
    _text_len (py_join [sp] g) font ≤ max_px ∨ (∃ w, g = [w]) →
    ∃ groups : list (list pystr),
      wrap_loop font max_px lines (py_join [sp] g) ws
        = lines ++ (py_join [sp] <$> groups)
      ∧ mjoin groups = g ++ ws
      ∧ groups ≠ []
      ∧ Forall (line_ok font max_px) groups.
Proof.
  induction ws as [|w ws IH]; intros lines g Hne Hg.
  - exists [g]. simpl. rewrite !app_nil_r.
    repeat split; [done|]. constructor; [by apply line_ok_intro | constructor].
  - assert (Hj : py_join [sp] (g ++ [w]) = py_join [sp] g ++ sp :: w)
      by (by rewrite py_join_app).
    simpl wrap_loop. rewrite <- Hj.
    destruct (Z.leb_spec (_text_len (py_join [sp] (g ++ [w])) font) max_px)
      as [Hfit | Hover].
    + destruct (IH lines (g ++ [w])) as (groups & Heq & Hcat & Hgs & Hok).
      { by destruct g. }
      { by left. }
      exists groups. rewrite Heq, Hcat, <- app_assoc. done.
    + destruct (IH (lines ++ [py_join [sp] g]) [w]) as (groups & Heq & Hcat & Hgs & Hok).
      { done. }
      { right. by exists w. }
      exists (g :: groups). simpl py_join in Heq. rewrite Heq.
      rewrite fmap_cons, <- app_assoc. simpl mjoin. rewrite Hcat.
      repeat split; [done|]. constructor; [by apply line_ok_intro | done].
Qed.

(** The lines of [_wrap] are the joined groups of a cutting of the words. *)
Lemma wrap_groups (text : option pystr) :
  ∃ groups : list (list pystr),
    mjoin groups = words_of text
    ∧ _wrap text font max_px
        = match groups with [] => [[]] | _ => py_join [sp] <$> groups end
    ∧ Forall (line_ok font max_px) groups.
Proof.
  unfold _wrap, words_of. destruct (py_split (default [] text)) as [|w0 ws].
  - exists []. by repeat split.
  - destruct (wrap_loop_groups ws [] [w0]) as (groups & Heq & Hcat & Hgs & Hok).
    { done. }
    { right. by exists w0. }
    exists groups. simpl py_join in Heq. rewrite Heq. simpl.
    repeat split; [done | by destruct groups | done].
Qed.

End Wrap.

(** C5 (as amended).  Every line produced by [_wrap] is the single-space
    join of one or more consecutive whole words of the input (no word is
    split), and its measured width is at most the maximum unless the line
    is one word whose own width exceeds the maximum, or the text holds no
    word at all and the line is the empty line returned for it, which is
    the only line then. *)
Theorem wrap_lines_fit (text : option pystr) (font : Font) (max_px : Z) :
  (∃ groups : list (list pystr),
      mjoin groups = words_of text
      ∧ _wrap text font max_px
          = match groups with [] => [[]] | _ => py_join [sp] <$> groups end
      ∧ Forall (line_ok font max_px) groups)
  ∧ Forall (λ line,
        _text_len line font ≤ max_px
        ∨ (line ∈ words_of text ∧ max_px < _text_len line font)
        ∨ (words_of text = [] ∧ line = []))
      (_wrap text font max_px)
  ∧ (words_of text = [] → _wrap text font max_px = [[]]).
Proof.
  destruct (wrap_groups font max_px text) as (groups & Hcat & Heq & Hok).
  split; [by exists groups|]. split.
  - rewrite Heq. destruct groups as [|g groups].
    { constructor; [|constructor]. right. right. by rewrite <- Hcat. }
    rewrite <- Hcat. clear Heq Hcat.
    apply Forall_fmap, Forall_forall. intros g' Hin.
    rewrite Forall_forall in Hok.
    destruct (Hok g' Hin) as [Hne [Hfit | (w & -> & Hover)]]; [by left|].
    right. left. split; [|done].
    apply list_elem_of_join. exists [w]. split; [by left | done].
  - intros Hnone. unfold _wrap. unfold words_of in Hnone. by rewrite Hnone.
Qed.

(** C5 as stated fails: for a text of blanks and a negative maximum width
    the single line returned is the empty line, which measures 0 pixels,
    more than the maximum, and is no word of the text. *)
Lemma wrap_blank_line_overflows :
  _wrap (Some (py "  ")) mono10 (-1) = [[]]
  ∧ words_of (Some (py "  ")) = []
  ∧ ¬ Forall (λ line,
          _text_len line mono10 ≤ -1
          ∨ (line ∈ words_of (Some (py "  "))
             ∧ -1 < _text_len line mono10))
        (_wrap (Some (py "  ")) mono10 (-1)).
Proof.
  split; [reflexivity|]. split; [reflexivity|].
  intros H. apply Forall_cons in H as [[H | [H _]] _].
  - vm_compute in H. by apply H.
  - vm_compute in H. by apply elem_of_nil in H.
Qed.

(** C6. Joining the lines of [_wrap] with single spaces and splitting the
    result on whitespace gives back the words of the input. *)
Theorem wrap_preserves_words (text : option pystr) (font : Font) (max_px : Z) :
  py_split (py_join [sp] (_wrap text font max_px)) = words_of text.
Proof.
  destruct (wrap_groups font max_px text) as (groups & Hcat & Heq & Hok).
  rewrite Heq, <- Hcat. destruct groups as [|g groups]; [done|].
  rewrite py_join_groups.
  - apply py_split_join. rewrite Hcat. apply py_split_words.
  - eapply Forall_impl; [exact Hok|]. by intros ? [? _].
Qed.

(** ** Receipt rasteriser *)

Section Strip.

Lemma py_lstrip_truthy (s : pystr) :
  py_truthy (py_lstrip s) = existsb ink s.
Proof.
  induction s as [|c r IH]; [done|].
  simpl. unfold ink at 1. by destruct (py_isspace c).
Qed.

Lemma py_lstrip_ink (s : pystr) :
  existsb ink (py_lstrip s) = existsb ink s.
Proof.
  induction s as [|c r IH]; [done|].
  simpl. unfold ink at 2. destruct (py_isspace c) eqn:Hc; [done|].
  simpl. unfold ink at 1. by rewrite Hc.
Qed.

Lemma existsb_reverse {A} (f : A → bool) (l : list A) :
  existsb f (reverse l) = existsb f l.
Proof.
  induction l as [|x l IH]; [done|].
  rewrite reverse_cons, existsb_app, IH. simpl.
  rewrite orb_false_r. apply orb_comm.
Qed.

Lemma py_truthy_reverse (s : pystr) : py_truthy (reverse s) = py_truthy s.
Proof.
  destruct s as [|c r]; [done|].
  rewrite reverse_cons. by destruct (reverse r).
Qed.

(** [s.strip()] is non-empty exactly when [s] has a non-whitespace
    character. *)
Lemma py_strip_truthy (s : pystr) :
  py_truthy (py_strip s) = existsb ink s.
Proof.
  unfold py_strip.
  by rewrite py_truthy_reverse, py_lstrip_truthy, existsb_reverse, py_lstrip_ink.
Qed.

Lemma ink_truthy (s : pystr) : existsb ink s = true → py_truthy s = true.
Proof. by destruct s. Qed.

End Strip.

Lemma wrap_loop_length font max_px (ws : list pystr) :
  ∀ lines cur, (0 < length (wrap_loop font max_px lines cur ws))%nat.
Proof.
  induction ws as [|w ws IH]; intros lines cur; simpl.
  - rewrite length_app. simpl. lia.
  - destruct (_ <=? _); apply IH.
Qed.

(** [_wrap] never returns the empty list. *)
Lemma wrap_truthy text font max_px :
  list_truthy (_wrap text font max_px) = true.
Proof.
  unfold _wrap. destruct (py_split _) as [|w0 ws]; [done|].
  pose proof (wrap_loop_length font max_px ws [] w0) as H.
  destruct (wrap_loop _ _ _ _ _); [simpl in H; lia | done].
Qed.

Lemma foldl_extend {A B} (f : A → list B) (l : list A) :
  ∀ acc, foldl (λ acc x, acc ++ f x) acc l = acc ++ (l ≫= f).
Proof.
  induction l as [|x l IH]; intros acc; simpl.
  - by rewrite app_nil_r.
  - rewrite IH. by rewrite <- app_assoc.
Qed.

Lemma length_list_bind {A B} (f : A → list B) (l : list A) :
  length (l ≫= f) = sum_list_with (λ x, length (f x)) l.
Proof.
  induction l as [|x l IH]; [done|].
  rewrite bind_cons, length_app, IH. done.
Qed.

Lemma list_truthy_length {A} (l : list A) :
  list_truthy l = false → length l = 0%nat.
Proof. by destruct l. Qed.

(** C7. The canvas of [render_receipt_image] is 576 pixels wide and as
    high as the sum of the top margin, the title block (wrapped title
    lines and the gap, for a non-blank title), the timestamp line (when
    requested), the wrapped body lines and the bottom margin, but at
    least 100 pixels. *)
Theorem receipt_canvas_size (env : RenderEnv) (title : option pystr)
    (body_lines : list pystr) (add_dt : bool) :
  size (render_receipt_image env title body_lines add_dt)
  = (576, spec_receipt_height env title body_lines add_dt)
  ∧ 100 ≤ spec_receipt_height env title body_lines add_dt.
Proof.
  split; [|unfold spec_receipt_height; lia].
  unfold render_receipt_image, spec_receipt_height.
  repeat match goal with
         | |- context [draw_lines ?f ?lh ?st ?ls] =>
             destruct (draw_lines f lh st ls) as [? ?]
         | |- context [let '(_, _) := ?p in _] => destruct p as [? ?]
         end.
  simpl size. f_equal. unfold get_lh.
  rewrite foldl_extend, app_nil_l.
  set (usable := PRINT_WIDTH_PX - MARGIN_L - MARGIN_R).
  (* the title block *)
  assert (Htitle :
    ∀ wt, wt = match title with
               | Some t => if py_truthy t && py_truthy (py_strip t)
                           then _wrap (Some (py_strip t)) (FONT_TITLE env) usable
                           else []
               | None => []
               end →
          (if list_truthy wt
           then MARGIN_T + Z.of_nat (length wt) * line_height (FONT_TITLE env) + 10
           else MARGIN_T)
          = MARGIN_T
            + (if non_blank title
               then Z.of_nat (length (_wrap (py_strip <$> title) (FONT_TITLE env) usable))
                    * line_height (FONT_TITLE env) + 10
               else 0)).
  { intros wt ->. destruct title as [t|]; simpl; [|lia].
    rewrite py_strip_truthy.
    destruct (existsb _ t) eqn:Hink.
    - rewrite (ink_truthy _ Hink). simpl. rewrite wrap_truthy. lia.
    - rewrite andb_false_r. simpl. lia. }
  rewrite (Htitle _ eq_refl). clear Htitle.
  (* the timestamp *)
  assert (Htime :
    match (if add_dt then Some (strftime (now env)) else None) with
    | Some s => py_truthy s
    | None => false
    end = add_dt) by (by destruct add_dt).
  rewrite Htime. clear Htime.
  (* the body *)
  rewrite length_list_bind.
  set (n := sum_list_with _ body_lines).
  destruct (list_truthy _) eqn:Hbody.
  - destruct (non_blank title), add_dt; lia.
  - apply list_truthy_length in Hbody. rewrite length_list_bind in Hbody.
    fold n in Hbody. rewrite Hbody.
    destruct (non_blank title), add_dt; lia.
Qed.

(** ** Protocol encoder *)

Section Raster.

Variable b : Bitmap.

Lemma packed_bit_range x y : 0 ≤ packed_bit b x y ≤ 1.
Proof. unfold packed_bit. destruct (_ && _); lia. Qed.

Lemma packed_byte_sum y i :
  packed_byte b y i
  = 128 * packed_bit b (8 * i + 0) y + 64 * packed_bit b (8 * i + 1) y
    + 32 * packed_bit b (8 * i + 2) y + 16 * packed_bit b (8 * i + 3) y
    + 8 * packed_bit b (8 * i + 4) y + 4 * packed_bit b (8 * i + 5) y
    + 2 * packed_bit b (8 * i + 6) y + packed_bit b (8 * i + 7) y.
Proof.
  unfold packed_byte. change (seqZ 0 8) with [0; 1; 2; 3; 4; 5; 6; 7].
  cbn [foldl]. lia.
Qed.

Lemma packed_byte_range y i : 0 ≤ packed_byte b y i < 256.
Proof.
  rewrite packed_byte_sum.
  pose proof (packed_bit_range (8 * i + 0) y).
  pose proof (packed_bit_range (8 * i + 1) y).
  pose proof (packed_bit_range (8 * i + 2) y).
  pose proof (packed_bit_range (8 * i + 3) y).
  pose proof (packed_bit_range (8 * i + 4) y).
  pose proof (packed_bit_range (8 * i + 5) y).
  pose proof (packed_bit_range (8 * i + 6) y).
  pose proof (packed_bit_range (8 * i + 7) y).
  lia.
Qed.

(** Inverting a byte is subtracting it from 255. *)
Lemma invert_byte v : 0 ≤ v < 256 → Z.land (Z.lnot v) 255 = 255 - v.
Proof.
  intros Hv. change 255 with (Z.ones 8) at 1.
  rewrite Z.land_ones by lia. unfold Z.lnot.
  replace (Z.pred (- v)) with ((255 - v) + (-1) * 2 ^ 8) by lia.
  rewrite Z.mod_add by lia. apply Z.mod_small. lia.
Qed.

(** Bit [7 - k] of the inverted byte is the negation of its [k]-th pixel. *)
Lemma inverted_byte_bit y i k :
  0 ≤ k < 8 →
  Z.testbit (255 - packed_byte b y i) (7 - k)
  = negb ((8 * i + k <? bw b) && bpx b (8 * i + k) y).
Proof.
  intros Hk. rewrite packed_byte_sum. unfold packed_bit.
  assert (k = 0 ∨ k = 1 ∨ k = 2 ∨ k = 3 ∨ k = 4 ∨ k = 5 ∨ k = 6 ∨ k = 7)
    as Hcases by lia.
  destruct Hcases as [->|[->|[->|[->|[->|[->|[->| ->]]]]]]];
    generalize ((8 * i + 0 <? bw b) && bpx b (8 * i + 0) y);
    generalize ((8 * i + 1 <? bw b) && bpx b (8 * i + 1) y);
    generalize ((8 * i + 2 <? bw b) && bpx b (8 * i + 2) y);
    generalize ((8 * i + 3 <? bw b) && bpx b (8 * i + 3) y);
    generalize ((8 * i + 4 <? bw b) && bpx b (8 * i + 4) y);
    generalize ((8 * i + 5 <? bw b) && bpx b (8 * i + 5) y);
    generalize ((8 * i + 6 <? bw b) && bpx b (8 * i + 6) y);
    generalize ((8 * i + 7 <? bw b) && bpx b (8 * i + 7) y);
    intros p7 p6 p5 p4 p3 p2 p1 p0;
    destruct p0, p1, p2, p3, p4, p5, p6, p7; reflexivity.
Qed.

Lemma packed_row_length y :
  length (packed_row b y) = Z.to_nat ((bw b + 7) / 8).
Proof. unfold packed_row. by rewrite length_fmap, length_seqZ. Qed.

Lemma tobytes_length :
  length (tobytes b) = (Z.to_nat (bh b) * Z.to_nat ((bw b + 7) / 8))%nat.
Proof.
  unfold tobytes. rewrite length_join, <- list_fmap_compose.
  rewrite (sum_list_fmap_same (Z.to_nat ((bw b + 7) / 8))).
  - by rewrite length_seqZ.
  - apply Forall_forall. intros y _. apply packed_row_length.
Qed.

Lemma tobytes_lookup (y i : Z) :
  0 ≤ y < bh b → 0 ≤ i < (bw b + 7) / 8 →
  tobytes b !! (Z.to_nat y * Z.to_nat ((bw b + 7) / 8) + Z.to_nat i)%nat
  = Some (packed_byte b y i).
Proof.
  intros Hy Hi. unfold tobytes.
  apply (join_lookup_Some_same_length' (Z.to_nat ((bw b + 7) / 8))).
  - apply Forall_fmap, Forall_forall. intros y' _. apply packed_row_length.
  - lia.
  - exists (packed_row b y). split.
    + rewrite list_lookup_fmap, lookup_seqZ_lt by lia.
      simpl. f_equal. f_equal. lia.
    + unfold packed_row. rewrite list_lookup_fmap, lookup_seqZ_lt by lia.
      simpl. f_equal. f_equal. lia.
Qed.

Lemma tobytes_range : Forall (λ v, 0 ≤ v < 256) (tobytes b).
Proof.
  unfold tobytes. apply Forall_join, Forall_fmap, Forall_forall.
  intros y _. apply Forall_fmap, Forall_forall. intros i _.
  apply packed_byte_range.
Qed.

End Raster.

Lemma to_bytes_little_2 (n : Z) :
  0 ≤ n < 65536 → to_bytes_little 2 n = Ret [n mod 256; n / 256].
Proof.
  intros Hn. unfold to_bytes_little.
  change (256 ^ Z.of_nat 2) with 65536.
  destruct (Z.ltb_spec n 0); [lia|]. destruct (Z.leb_spec 65536 n); [lia|].
  simpl. do 2 f_equal. f_equal.
  apply Z.mod_small. split; [apply Z.div_pos; lia|].
  apply Z.div_lt_upper_bound; lia.
Qed.

Lemma to_bytes_little_2_overflow (n : Z) :
  65536 ≤ n → to_bytes_little 2 n = Raise OverflowError.
Proof.
  intros Hn. unfold to_bytes_little.
  change (256 ^ Z.of_nat 2) with 65536.
  destruct (Z.ltb_spec n 0); [done|]. by destruct (Z.leb_spec 65536 n); [|lia].
Qed.

(** C2 (as amended).  For a 1-bit image whose width in bytes and height fit
    16 bits, [pil_to_escpos_raster] returns the raster header, the two
    dimensions as little-endian 16-bit fields (width in bytes being the
    width divided by eight, rounded up) and the packed bitmap with every
    byte inverted, so that a payload bit is set exactly where the pixel is
    black; for larger dimensions it raises [OverflowError].  The 8x8
    all-black image has width-bytes 1, height 8 and eight payload bytes
    255. *)
Theorem raster_encoding (dither : Image → Bitmap) (b : Bitmap)
    (Hw : 0 ≤ bw b) (Hh : 0 ≤ bh b) :
  let w_bytes := (bw b + 7) / 8 in
  (8 * w_bytes - 8 < bw b ≤ 8 * w_bytes)
  ∧ (if (w_bytes <? 65536) && (bh b <? 65536) then
       ∃ payload : list Z,
         pil_to_escpos_raster dither (Mode1 b)
         = Ret (raster_header
                ++ [w_bytes mod 256; w_bytes / 256; bh b mod 256; bh b / 256]
                ++ payload)
         ∧ le16 (w_bytes mod 256) (w_bytes / 256) = w_bytes
         ∧ le16 (bh b mod 256) (bh b / 256) = bh b
         ∧ payload = (λ v, 255 - v) <$> tobytes b
         ∧ length payload = Z.to_nat (bh b * w_bytes)
         ∧ ∀ x y, 0 ≤ x < bw b → 0 ≤ y < bh b →
             ∃ v, payload !! Z.to_nat (y * w_bytes + x / 8) = Some v
                  ∧ Z.testbit v (7 - x mod 8) = negb (bpx b x y)
     else pil_to_escpos_raster dither (Mode1 b) = Raise OverflowError)
  ∧ pil_to_escpos_raster dither (Mode1 black8)
    = Ret (raster_header ++ [1; 0; 8; 0] ++ replicate 8 255).
Proof.
  intros w_bytes.
  assert (Hwb : 0 ≤ w_bytes) by (apply Z.div_pos; lia).
  assert (Hceil : 8 * w_bytes - 8 < bw b ≤ 8 * w_bytes).
  { unfold w_bytes.
    pose proof (Z.div_mod (bw b + 7) 8 ltac:(lia)).
    pose proof (Z.mod_pos_bound (bw b + 7) 8 ltac:(lia)). lia. }
  split; [done|]. split; [|reflexivity].
  unfold pil_to_escpos_raster. simpl convert_1. fold w_bytes.
  destruct (Z.ltb_spec w_bytes 65536) as [Hwfit | Hwover]; simpl andb.
  2: { by rewrite to_bytes_little_2_overflow. }
  rewrite (to_bytes_little_2 w_bytes) by lia.
  destruct (Z.ltb_spec (bh b) 65536) as [Hhfit | Hhover].
  2: { by rewrite to_bytes_little_2_overflow. }
  rewrite (to_bytes_little_2 (bh b)) by lia.
  assert (Hinv : (λ v, Z.land (Z.lnot v) 255) <$> tobytes b
                 = (λ v, 255 - v) <$> tobytes b).
  { apply Forall_fmap_ext_1. eapply Forall_impl; [apply tobytes_range|].
    intros v Hv. by apply invert_byte. }
  exists ((λ v, 255 - v) <$> tobytes b).
  split; [by rewrite Hinv, <- !app_assoc|].
  unfold le16.
  split; [pose proof (Z.div_mod w_bytes 256 ltac:(lia)); lia|].
  split; [pose proof (Z.div_mod (bh b) 256 ltac:(lia)); lia|].
  split; [done|].
  split.
  { rewrite length_fmap, tobytes_length. fold w_bytes.
    rewrite Z2Nat.inj_mul by lia. done. }
  intros x y Hx Hy.
  assert (Hq : 0 ≤ x / 8 < w_bytes).
  { split; [apply Z.div_pos; lia|]. apply Z.div_lt_upper_bound; lia. }
  exists (255 - packed_byte b y (x / 8)). split.
  - rewrite Z2Nat.inj_add, Z2Nat.inj_mul by lia.
    rewrite list_lookup_fmap. unfold w_bytes. rewrite tobytes_lookup by done.
    done.
  - pose proof (Z.mod_pos_bound x 8 ltac:(lia)).
    rewrite inverted_byte_bit by lia.
    replace (8 * (x / 8) + x mod 8) with x
      by (pose proof (Z.div_mod x 8 ltac:(lia)); lia).
    destruct (Z.ltb_spec x (bw b)); [done | lia].
Qed.

(** An instance: the 8x8 all-black image. *)
Lemma raster_encoding_witness :
  pil_to_escpos_raster blank_dither (Mode1 black8)
  = Ret (raster_header ++ [1; 0; 8; 0] ++ replicate 8 255).
Proof.
  apply (raster_encoding blank_dither black8); simpl; lia.
Defined.

(** C2 as stated fails: the payload of the 8x8 all-black image is not eight
    zero bytes, and an image of 65536 rows yields no command at all. *)
Lemma raster_black8_not_zero :
  pil_to_escpos_raster blank_dither (Mode1 black8)
    ≠ Ret (raster_header ++ [1; 0; 8; 0] ++ replicate 8 0)
  ∧ ¬ (∃ out, pil_to_escpos_raster blank_dither (Mode1 strip65536) = Ret out).
Proof.
  split.
  - vm_compute. discriminate.
  - intros [out Hout]. vm_compute in Hout. discriminate.
Qed.

(** ** Delivery dispatcher *)

Lemma lan_commands_eq (raster : list Z) (cut : bool) :
  (if cut then ([27; 64] ++ raster ++ replicate 4 10) ++ [29; 86; 0]
   else [27; 64] ++ raster ++ replicate 4 10)
  = lan_commands raster cut.
Proof.
  unfold lan_commands. destruct cut.
  - by rewrite <- !app_assoc.
  - by rewrite app_nil_r.
Qed.

Ltac run_effects :=
  cbv beta iota zeta delta
    [try_except try_finally call step emit lift raise outcome trace
     mbind M_bind mret M_ret any_Exception no_error fst snd].

(** Case analyses over the outcomes of the external calls end in goals of
    propositional shape over equations; these two tactics settle them. *)
Ltac prove_case :=
  match goal with
  | |- _ ∧ _ => split; prove_case
  | |- _ ∨ _ => (left; prove_case) + (right; prove_case)
  | |- ∃ _, _ => eexists; prove_case
  | |- _ => first [reflexivity | eassumption | congruence]
  end.

Ltac settle_cases :=
  cbn [andb orb negb];
  repeat match goal with
         | |- _ ∧ _ => split
         | |- _ ↔ _ => split
         | |- ∀ _, _ => intro
         | |- _ → _ => intro
         end;
  repeat match goal with
         | H : _ ∧ _ |- _ => destruct H
         | H : _ ∨ _ |- _ => destruct H
         | H : ∃ _, _ |- _ => destruct H
         end;
  simplify_eq; try done; try congruence; try prove_case;
  try match goal with
      | H : ∀ e, ¬ _ |- _ => exfalso; eapply H; prove_case
      end.

(** What the local path does, case by case: it makes socket calls only;
    it returns [True] exactly when local delivery succeeds, [False]
    exactly when it is unavailable, and raises exactly the exceptions of
    its steps that are no socket-level errors. *)
Lemma send_lan_image_cases pil env app img cut :
  Forall (λ ev, is_lan_event ev = true)
    (trace (send_lan_image pil env app img cut))
  ∧ (outcome (send_lan_image pil env app img cut) = Ret true
     ↔ lan_succeeds pil env app img cut = true)
  ∧ (outcome (send_lan_image pil env app img cut) = Ret false
     ↔ lan_unavailable pil env app img cut)
  ∧ (∀ e, outcome (send_lan_image pil env app img cut) = Raise e
          ↔ lan_step_raises pil env app img cut e ∧ is_OSError e = false).
Proof.
  unfold send_lan_image, lan_succeeds, lan_unavailable, lan_step_raises,
    printer_ip_of.
  set (ip := dict_get app "printer_ip" (JStr [])).
  destruct (json_truthy ip) eqn:Hip; cbn [negb andb].
  2: { split; [constructor|]. run_effects. settle_cases. }
  destruct (sock_connect env ip PRINTER_PORT) as [e1|] eqn:Hconn.
  { run_effects. destruct (is_OSError e1) eqn:Hos; cbv beta iota zeta;
      (split; [by repeat constructor|]); settle_cases. }
  destruct (pil_to_escpos_raster (pil_dither pil) img) as [raster | e1] eqn:Hr.
  2: { run_effects. destruct (is_OSError e1) eqn:Hos; cbv beta iota zeta;
         (split; [by repeat constructor|]); settle_cases. }
  run_effects. rewrite lan_commands_eq.
  destruct (sock_sendall env (lan_commands raster cut)) as [e1|] eqn:Hsend.
  { destruct (is_OSError e1) eqn:Hos; cbv beta iota zeta;
      (split; [by repeat constructor|]); settle_cases. }
  destruct (sock_close env) as [e1|] eqn:Hclose.
  { destruct (is_OSError e1) eqn:Hos; cbv beta iota zeta;
      (split; [by repeat constructor|]); settle_cases. }
  cbv beta iota zeta. split; [by repeat constructor|]. settle_cases.
Qed.

(** What the cloud path does, case by case: it makes broker calls only; it
    returns [True] exactly when cloud delivery succeeds and raises exactly
    the exceptions of the calls that precede its [try] block; when it is
    available and those calls return, the connection is attempted. *)
Lemma send_mqtt_image_cases pil env app img cut :
  Forall (λ ev, is_cloud_event ev = true)
    (trace (send_mqtt_image pil env app img cut))
  ∧ (outcome (send_mqtt_image pil env app img cut) = Ret true
     ↔ cloud_succeeds env app img = true)
  ∧ (∀ e, outcome (send_mqtt_image pil env app img cut) = Raise e
          ↔ cloud_setup_raises env app img e)
  ∧ (cloud_available env app = true →
     (∀ e, ¬ cloud_setup_raises env app img e) →
     MqttConnect (mqtt_host_of app) (mqtt_port_of app) 30
       ∈ trace (send_mqtt_image pil env app img cut)).
Proof.
  unfold send_mqtt_image, cloud_succeeds, cloud_setup_raises, cloud_available,
    client_setup_ok, broker_calls_ok, mqtt_host_of, mqtt_port_of, mqtt_topic_of.
  set (host := dict_get app "mqtt_host" (JStr [])).
  set (port := dict_get app "mqtt_port" (JNum 8883)).
  set (topic := dict_get app "mqtt_topic" _).
  set (user := dict_get app "mqtt_user" (JStr [])).
  set (pw := dict_get app "mqtt_pass" (JStr [])).
  destruct (json_truthy host) eqn:Hhost; cbn [negb andb];
    [|split; [constructor|]; run_effects; settle_cases].
  destruct (paho_importable env) eqn:Hpaho; cbn [negb andb];
    [|split; [constructor|]; run_effects; settle_cases].
  destruct (png_encode env img) as [e1|] eqn:Hpng.
  { run_effects. split; [constructor|]. settle_cases. }
  destruct (mqtt_client env) as [e1|] eqn:Hclient.
  { run_effects. split; [by repeat constructor|]. settle_cases. }
  destruct (json_truthy (dict_get app "mqtt_use_tls" (JBool true))) eqn:Htls;
    [destruct (mqtt_tls_set env) as [e1|] eqn:Htlsset|].
  { run_effects. split; [by repeat constructor|]. settle_cases. }
  all: destruct (json_truthy user) eqn:Huser;
    [destruct (mqtt_username_pw_set env user pw) as [e1|] eqn:Hpw|].
  all: try (run_effects; split; [by repeat constructor|]; settle_cases).
  all: run_effects;
    destruct (mqtt_connect env host port);
    [|destruct (mqtt_publish env topic);
      [|destruct (mqtt_loop env); [|destruct (mqtt_disconnect env)]]];
    cbv beta iota zeta; cbn [andb orb negb];
    (split; [by repeat constructor|]);
    (split; [settle_cases|]); (split; [settle_cases|]);
    intros _ _; set_solver.
Qed.



(** C4. With neither a printer address nor a broker host configured,
    [print_master] returns the failure outcome, and its log of external
    calls is empty: no socket and no broker connection is opened. *)
Theorem print_master_unconfigured (pil : Pillow) (env : NetEnv)
    (app : settings) (img : Image) (cut : bool)
    (Hip : json_truthy (printer_ip_of app) = false)
    (Hhost : json_truthy (mqtt_host_of app) = false) :
  print_master pil env app img cut = (Ret FAILED, []).
Proof.
  unfold print_master, send_lan_image, send_mqtt_image,
    printer_ip_of, mqtt_host_of in *.
  rewrite Hip, Hhost. reflexivity.
Qed.

(** An instance: the default settings. *)
Lemma print_master_unconfigured_witness :
  print_master plain_pillow net_up DEFAULT_SETTINGS (Mode1 black8) true
  = (Ret FAILED, []).
Proof.
  apply (print_master_unconfigured plain_pillow net_up DEFAULT_SETTINGS);
    vm_compute; reflexivity.
Defined.

(** ** Settings *)

Lemma dict_update_lookup (d data : settings) (k : string) :
  dict_update d data !! k
  = match data !! k with Some v => Some v | None => d !! k end.
Proof.
  unfold dict_update. destruct (data !! k) as [v|] eqn:Hk.
  - by apply lookup_union_Some_l.
  - by rewrite lookup_union_r.
Qed.

(** C8 (as amended).  Loading a settings file that holds a JSON object
    gives every key absent from the file its default value and every key
    present in the file the file's value; keys the application does not
    know are therefore kept in the loaded configuration.  The defaults are
    defined for exactly the recognised keys. *)
Theorem load_settings_merges (st : settings_state) (data : settings)
    (Hfile : SETTINGS_FILE st = FileObject data) :
  let loaded := (load_settings st).1.1 in
  APP_SETTINGS (load_settings st).1.2 = loaded
  ∧ (∀ k, data !! k = None → loaded !! k = DEFAULT_SETTINGS !! k)
  ∧ (∀ k v, data !! k = Some v → loaded !! k = Some v)
  ∧ dom DEFAULT_SETTINGS = list_to_set (C := gset string) recognized_keys
  ∧ DEFAULT_SETTINGS !! "printer_ip"%string = Some (JStr [])
  ∧ DEFAULT_SETTINGS !! "mqtt_port"%string = Some (JNum 8883)
  ∧ DEFAULT_SETTINGS !! "mqtt_use_tls"%string = Some (JBool true).
Proof.
  unfold load_settings. rewrite Hfile. simpl.
  split; [done|].
  split; [intros k Hk; by rewrite dict_update_lookup, Hk|].
  split; [intros k v Hk; by rewrite dict_update_lookup, Hk|].
  split; [unfold DEFAULT_SETTINGS; by rewrite dom_list_to_map_L|].
  by vm_compute.
Qed.

(** An instance: a file that sets the printer address and an unknown key. *)
Lemma load_settings_merges_witness :
  (load_settings file_with_unknown_key).1.1 !! "mqtt_port"%string
  = DEFAULT_SETTINGS !! "mqtt_port"%string.
Proof.
  refine (proj1 (proj2 (load_settings_merges file_with_unknown_key _ eq_refl))
            "mqtt_port"%string _).
  vm_compute. reflexivity.
Defined.

(** C8 as stated fails: a key the application does not know appears in the
    loaded configuration. *)
Lemma load_settings_keeps_unknown_key :
  ("paper_width"%string ∉ recognized_keys)
  ∧ (load_settings file_with_unknown_key).1.1 !! "paper_width"%string
    = Some (JNum 58).
Proof.
  split.
  - intros H. by repeat (apply elem_of_cons in H as [H | H]; [done|]);
      apply elem_of_nil in H.
  - vm_compute. reflexivity.
Qed.

(** C10. For every mapping and however the write ends, [save_settings]
    merges the data into [APP_SETTINGS] before it attempts the write: the
    merged dictionary is what the write is given, and it is the value of
    [APP_SETTINGS] afterwards, holding every new value and keeping the
    other keys.  [True] is returned exactly when the write succeeds, and
    the file then holds the merged dictionary.  When the save fails and
    [False] is returned, [APP_SETTINGS] is not restored; the file is
    untouched or unreadable, so that whenever the data changes a value the
    file held, memory and file differ afterwards. *)
Theorem save_settings_not_rolled_back (w : write_outcome) (data : settings)
    (st : settings_state) :
  let st' := (save_settings w data st).2 in
  during_write (save_settings w data st).1 = dict_update (APP_SETTINGS st) data
  ∧ APP_SETTINGS st' = dict_update (APP_SETTINGS st) data
  ∧ (∀ k v, data !! k = Some v → APP_SETTINGS st' !! k = Some v)
  ∧ (∀ k, data !! k = None → APP_SETTINGS st' !! k = APP_SETTINGS st !! k)
  ∧ (returned (save_settings w data st).1 = true ↔ w = WriteOk)
  ∧ (returned (save_settings w data st).1 = true →
     SETTINGS_FILE st' = FileObject (APP_SETTINGS st'))
  ∧ (returned (save_settings w data st).1 = false →
     (SETTINGS_FILE st' = SETTINGS_FILE st
      ∨ SETTINGS_FILE st' = FileUnreadable)
     ∧ ((∃ k v, data !! k = Some v
                ∧ ∀ persisted, SETTINGS_FILE st = FileObject persisted →
                               persisted !! k ≠ Some v) →
        SETTINGS_FILE st' ≠ FileObject (APP_SETTINGS st'))).
Proof.
  assert (Hlook : ∀ k v, data !! k = Some v →
                         dict_update (APP_SETTINGS st) data !! k = Some v).
  { intros k v Hk. by rewrite dict_update_lookup, Hk. }
  assert (Hkeep : ∀ k, data !! k = None →
                       dict_update (APP_SETTINGS st) data !! k
                       = APP_SETTINGS st !! k).
  { intros k Hk. by rewrite dict_update_lookup, Hk. }
  destruct w as [|e|e]; simpl.
  - repeat split; try done.
  - repeat split; try done; [by left|].
    intros (k & v & Hk & Hdiff) Heq. apply (Hdiff _ Heq). by apply Hlook.
  - repeat split; try done. by right.
Qed.

(** ** LaTeX engine *)

Lemma py_suffix_length (n : nat) (s : pystr) :
  (0 < n)%nat → (length (py_suffix n s) ≤ n)%nat.
Proof.
  intros Hn. unfold py_suffix. destruct n as [|n]; [lia|].
  rewrite length_drop. lia.
Qed.


Lemma check_pdflatex_outcome (env : TexEnv) :
  _check_pdflatex env
  = (Ret (compiler_present env), [RunProcess ["pdflatex"; "--version"]%string]).
Proof.
  unfold _check_pdflatex, compiler_present.
  destruct (pdflatex_version env); run_effects; by rewrite ?app_nil_r.
Qed.

(** C1 (the code at the failing input).  When the compilation exits with an
    error, whatever the log says and however a further compilation would
    end, [render_with_pdflatex] has run the compiler once and nothing
    else, and raises the error carrying the last 500 characters of the
    log; the workspace is removed. *)
Theorem render_with_pdflatex_single_attempt (pil : Pillow) (env : TexEnv)
    (latex_code : pystr)
    (Himp : pdf2image_importable env = true)
    (Hdir : mkdtemp env = None)
    (Hwrite : write_tex env = None)
    (Hfail : pdflatex_run env 0 = Some CalledProcessError) :
  render_with_pdflatex pil env latex_code
  = (Raise (RuntimeError (compile_error_message env)),
     [Mkdtemp; WriteFile "ticket.tex" (tex_source latex_code);
      RunProcess pdflatex_cmd; ReadLog; Rmtree])
  ∧ length (filter (λ ev, runs_program "pdflatex" ev = true)
              (trace (render_with_pdflatex pil env latex_code))) = 1%nat
  ∧ Forall (λ ev, runs_program "mpm" ev = false)
      (trace (render_with_pdflatex pil env latex_code))
  ∧ (length (py_suffix 500 (default (py "No log found.") (log_file env)))
     ≤ 500)%nat.
Proof.
  assert (Heq : render_with_pdflatex pil env latex_code
    = (Raise (RuntimeError (compile_error_message env)),
       [Mkdtemp; WriteFile "ticket.tex" (tex_source latex_code);
        RunProcess pdflatex_cmd; ReadLog; Rmtree])).
  { unfold render_with_pdflatex. rewrite Himp, Hdir, Hwrite, Hfail.
    reflexivity. }
  split; [done|]. rewrite Heq. unfold trace. simpl snd.
  split; [reflexivity|].
  split; [by repeat constructor|].
  apply py_suffix_length. lia.
Qed.

(** An instance: the log names a missing style file and a second
    compilation would succeed. *)
Lemma render_with_pdflatex_single_attempt_witness :
  render_with_pdflatex plain_pillow tex_missing_package (py "x")
  = (Raise (RuntimeError (compile_error_message tex_missing_package)),
     [Mkdtemp; WriteFile "ticket.tex" (tex_source (py "x"));
      RunProcess pdflatex_cmd; ReadLog; Rmtree]).
Proof.
  apply (render_with_pdflatex_single_attempt plain_pillow tex_missing_package
           (py "x")); reflexivity.
Defined.




(* ================================================================== *)
(** * Further properties of the backend *)
(* ================================================================== *)

(** ** Text layout: greedy breaks and the empty line *)

Lemma wrap_loop_greedy font max_px (ws : list pystr) :
  ∀ (lines : list pystr) (g : list pystr),
    g ≠ [] →
    ∃ (t : list pystr) (rest : list (list pystr)),
      wrap_loop font max_px lines (py_join [sp] g) ws
        = lines ++ (py_join [sp] <$> (g ++ t) :: rest)
      ∧ mjoin ((g ++ t) :: rest) = g ++ ws
      ∧ breaks_forced font max_px ((g ++ t) :: rest).
Proof.
  induction ws as [|w ws IH]; intros lines g Hne.
  - exists [], []. simpl. by rewrite !app_nil_r.
  - assert (Hj : py_join [sp] (g ++ [w]) = py_join [sp] g ++ sp :: w)
      by (by rewrite py_join_app).
    simpl wrap_loop. rewrite <- Hj.
    destruct (Z.leb_spec (_text_len (py_join [sp] (g ++ [w])) font) max_px)
      as [Hfit | Hover].
    + destruct (IH lines (g ++ [w])) as (t & rest & Heq & Hcat & Hforced).
      { by destruct g. }
      exists (w :: t), rest.
      replace (g ++ w :: t) with ((g ++ [w]) ++ t) by (by rewrite <- app_assoc).
      split; [done|]. split; [by rewrite Hcat, <- app_assoc | done].
    + destruct (IH (lines ++ [py_join [sp] g]) [w])
        as (t & rest & Heq & Hcat & Hforced); [done|].
      exists [], (([w] ++ t) :: rest). rewrite app_nil_r.
      simpl py_join in Heq. rewrite Heq, <- app_assoc.
      split; [done|]. split.
      * change (mjoin (g :: ([w] ++ t) :: rest))
          with (g ++ mjoin (([w] ++ t) :: rest)).
        by rewrite Hcat.
      * split; [|done]. simpl. by rewrite <- Hj.
Qed.

(** X1. [_wrap] is greedy: its lines are the joined groups of a cutting of
    the words in which every break is forced, that is, the first word of
    each further line did not fit at the end of the line before it. *)
Theorem wrap_breaks_forced (text : option pystr) (font : Font) (max_px : Z) :
  ∃ groups : list (list pystr),
    mjoin groups = words_of text
    ∧ _wrap text font max_px
        = match groups with [] => [[]] | _ => py_join [sp] <$> groups end
    ∧ breaks_forced font max_px groups.
Proof.
  unfold _wrap, words_of. destruct (py_split (default [] text)) as [|w0 ws].
  - exists []. by repeat split.
  - destruct (wrap_loop_greedy font max_px ws [] [w0])
      as (t & rest & Heq & Hcat & Hforced); [done|].
    exists (([w0] ++ t) :: rest). simpl py_join in Heq. by rewrite Heq.
Qed.

Lemma length_groups_le {A} (groups : list (list A)) :
  Forall (λ g, g ≠ []) groups → (length groups ≤ length (mjoin groups))%nat.
Proof.
  induction 1 as [|g groups Hg _ IH]; [done|].
  simpl. rewrite length_app. destruct g; [done|]. simpl. lia.
Qed.

Lemma py_join_words_nonempty (g : list pystr) :
  g ≠ [] → Forall is_word g → py_join [sp] g ≠ [].
Proof.
  intros Hne Hg. destruct g as [|w g]; [done|].
  inversion Hg as [|? ? [Hw _] _]; subst.
  destruct g; simpl; by destruct w.
Qed.

(** X2. [_wrap] returns the single empty line exactly when the text holds
    no word; otherwise no line is empty.  There are never more lines than
    words (and at least one line). *)
Theorem wrap_empty_line (text : option pystr) (font : Font) (max_px : Z) :
  (_wrap text font max_px = [[]] ↔ words_of text = [])
  ∧ (words_of text ≠ [] →
     Forall (λ line, line ≠ []) (_wrap text font max_px))
  ∧ (1 ≤ length (_wrap text font max_px)
       ≤ Nat.max 1 (length (words_of text)))%nat.
Proof.
  destruct (wrap_groups font max_px text) as (groups & Hcat & Heq & Hok).
  assert (Hne : Forall (λ g, g ≠ []) groups).
  { eapply Forall_impl; [exact Hok|]. by intros ? [? _]. }
  assert (Hwords : Forall (Forall is_word) groups).
  { pose proof (py_split_words (default [] text)) as Hw.
    fold (words_of text) in Hw. rewrite <- Hcat in Hw.
    clear -Hw. induction groups as [|g groups IH]; [constructor|].
    simpl in Hw. apply Forall_app in Hw as [? ?]. constructor; auto. }
  assert (Hlines : Forall (λ line, line ≠ []) (py_join [sp] <$> groups)).
  { apply Forall_fmap, Forall_forall. intros g Hg.
    rewrite Forall_forall in Hne, Hwords.
    apply py_join_words_nonempty; auto. }
  destruct groups as [|g groups].
  - simpl in Hcat. rewrite Heq, <- Hcat. repeat split; [done.. | simpl; lia | simpl; lia].
  - rewrite Heq. assert (Hw : words_of text ≠ []).
    { rewrite <- Hcat. simpl. inversion Hne; subst. by destruct g. }
    repeat split.
    + intros H. rewrite H in Hlines. by inversion Hlines.
    + done.
    + done.
    + simpl. lia.
    + rewrite length_fmap, <- Hcat.
      pose proof (length_groups_le _ Hne). lia.
Qed.

(** ** Receipt rasteriser: what is drawn, and where *)

Lemma stacked_cons font lh y (l : pystr) (ls : list pystr) :
  stacked font lh y (l :: ls)
  = DrawText MARGIN_L y l font :: stacked font lh (y + lh) ls.
Proof.
  unfold stacked. rewrite imap_cons. f_equal.
  - f_equal. lia.
  - apply imap_ext. intros i x _. simpl. f_equal. lia.
Qed.

Lemma draw_lines_stacked font lh (lines : list pystr) :
  ∀ ops y,
    draw_lines font lh (ops, y) lines
    = (ops ++ stacked font lh y lines, y + Z.of_nat (length lines) * lh).
Proof.
  unfold draw_lines.
  induction lines as [|l ls IH]; intros ops y.
  - simpl. rewrite app_nil_r. f_equal. lia.
  - rewrite stacked_cons. simpl foldl. rewrite IH.
    rewrite <- app_assoc. simpl length. f_equal. lia.
Qed.

Lemma stacked_texts font lh (lines : list pystr) :
  ∀ y, drawn_text <$> stacked font lh y lines = Some <$> lines.
Proof.
  induction lines as [|l ls IH]; intros y; [done|].
  rewrite stacked_cons, !fmap_cons, IH. done.
Qed.

Lemma stacked_within font (lines : list pystr) (h : Z) :
  0 ≤ line_height font →
  ∀ y, MARGIN_T ≤ y →
       y + Z.of_nat (length lines) * line_height font ≤ h - MARGIN_B →
       Forall (text_within h) (stacked font (line_height font) y lines).
Proof.
  intros Hlh. induction lines as [|l ls IH]; intros y Hy Hfit; [constructor|].
  rewrite stacked_cons. simpl length in Hfit.
  assert (0 ≤ Z.of_nat (length ls) * line_height font) by lia.
  constructor.
  - simpl. lia.
  - apply IH; lia.
Qed.

Lemma title_lines_eq (env : RenderEnv) (title : option pystr) :
  match title with
  | Some t =>
      if py_truthy t && py_truthy (py_strip t)
      then _wrap (Some (py_strip t)) (FONT_TITLE env)
             (PRINT_WIDTH_PX - MARGIN_L - MARGIN_R)
      else []
  | None => []
  end = title_lines env title.
Proof.
  unfold title_lines. destruct title as [t|]; [|done]. simpl.
  rewrite py_strip_truthy. destruct (existsb ink t) eqn:Hink.
  - by rewrite (ink_truthy _ Hink).
  - by rewrite andb_false_r.
Qed.

Lemma title_lines_truthy (env : RenderEnv) (title : option pystr) :
  list_truthy (title_lines env title) = non_blank title.
Proof.
  unfold title_lines. destruct (non_blank title); [|done]. apply wrap_truthy.
Qed.

(** X3. The receipt canvas carries text lines only, in this order: the
    wrapped title lines (for a non-blank title), the timestamp (when
    requested) and the wrapped body lines.  With non-negative line heights
    every line starts at the left margin, below the top margin, and ends
    above the bottom margin of the canvas. *)
Theorem receipt_layout (env : RenderEnv) (title : option pystr)
    (body_lines : list pystr) (add_dt : bool)
    (Htitle : 0 ≤ line_height (FONT_TITLE env))
    (Htext : 0 ≤ line_height (FONT_TEXT env))
    (Htime : 0 ≤ line_height (FONT_TIME env)) :
  ∃ (h : Z) (ops : list DrawOp),
    render_receipt_image env title body_lines add_dt
      = Canvas PRINT_WIDTH_PX h ops
    ∧ drawn_text <$> ops
      = Some <$> (title_lines env title
                  ++ (if add_dt then [strftime (now env)] else [])
                  ++ body_lines_of env body_lines)
    ∧ Forall (text_within h) ops.
Proof.
  unfold render_receipt_image.
  rewrite title_lines_eq, foldl_extend, app_nil_l.
  fold (body_lines_of env body_lines).
  set (TL := title_lines env title). set (BL := body_lines_of env body_lines).
  unfold get_lh. rewrite !draw_lines_stacked.
  pose proof (title_lines_truthy env title) as Htl. fold TL in Htl.
  assert (HnT : 0 ≤ Z.of_nat (length TL) * line_height (FONT_TITLE env))
    by lia.
  assert (HnB : 0 ≤ Z.of_nat (length BL) * line_height (FONT_TEXT env))
    by lia.
  assert (HBL : list_truthy BL = false → length BL = 0%nat)
    by apply list_truthy_length.
  assert (HTL : list_truthy TL = false → length TL = 0%nat)
    by apply list_truthy_length.
  destruct add_dt; cbv beta iota zeta;
    change (py_truthy (strftime (now env))) with true; cbv beta iota zeta;
    rewrite ?draw_lines_stacked; cbv beta iota zeta;
    eexists _, _; (split; [reflexivity|]); split.
  - rewrite !fmap_app, !stacked_texts. simpl. by rewrite <- app_assoc.
  - rewrite app_nil_l, !Forall_app. split; [split|].
    + apply stacked_within; [done | unfold MARGIN_T; lia |].
      destruct (list_truthy TL), (list_truthy BL);
        rewrite ?HBL, ?HTL by done; unfold MARGIN_T, MARGIN_B; lia.
    + constructor; [|constructor]. simpl.
      destruct (list_truthy TL) eqn:E1, (list_truthy BL) eqn:E2;
        rewrite ?HBL, ?HTL by done; unfold MARGIN_T, MARGIN_B, MARGIN_L; lia.
    + apply stacked_within; [done | |];
      destruct (list_truthy TL) eqn:E1, (list_truthy BL) eqn:E2;
        rewrite ?HBL, ?HTL by done; unfold MARGIN_T, MARGIN_B; lia.
  - rewrite app_nil_l, !fmap_app, !stacked_texts. done.
  - rewrite app_nil_l, !Forall_app. split.
    + apply stacked_within; [done | unfold MARGIN_T; lia |].
      destruct (list_truthy TL), (list_truthy BL);
        rewrite ?HBL, ?HTL by done; unfold MARGIN_T, MARGIN_B; lia.
    + apply stacked_within; [done | |];
      destruct (list_truthy TL) eqn:E1, (list_truthy BL) eqn:E2;
        rewrite ?HBL, ?HTL by done; unfold MARGIN_T, MARGIN_B; lia.
Qed.

Lemma receipt_layout_witness :
  ∃ (h : Z) (ops : list DrawOp),
    render_receipt_image clock_example (Some (py "Milk")) [py "two litres"] true
      = Canvas PRINT_WIDTH_PX h ops
    ∧ drawn_text <$> ops
      = Some <$> (title_lines clock_example (Some (py "Milk"))
                  ++ [strftime (now clock_example)]
                  ++ body_lines_of clock_example [py "two litres"])
    ∧ Forall (text_within h) ops.
Proof.
  apply (receipt_layout clock_example (Some (py "Milk")) [py "two litres"] true);
    simpl; lia.
Defined.

(** ** Protocol encoder: reading a command back *)

Lemma to_bytes_little_2_inv (n : Z) (l : list Z) :
  to_bytes_little 2 n = Ret l →
  0 ≤ n < 65536 ∧ l = [n mod 256; n / 256].
Proof.
  intros H. destruct (Z_lt_dec n 0) as [Hneg | Hpos].
  - unfold to_bytes_little in H.
    destruct (Z.ltb_spec n 0); [discriminate H | lia].
  - destruct (Z_le_gt_dec 65536 n) as [Hbig | Hsmall].
    + rewrite to_bytes_little_2_overflow in H by done. discriminate H.
    + rewrite to_bytes_little_2 in H by lia. injection H as <-.
      split; [lia | done].
Qed.

(** X4. A command returned by [pil_to_escpos_raster] for a 1-bit image is
    a string of bytes of length 8 + ceil(w/8) * h from which the image can
    be read back: its header decodes to the width in bytes and the height,
    and the dot at (x, y) is set exactly where the pixel is black.  Hence
    the encoding loses no pixel. *)
Theorem raster_roundtrip (dither : Image → Bitmap) (b : Bitmap) (cmd : list Z)
    (Hw : 0 ≤ bw b) (Hh : 0 ≤ bh b)
    (Henc : pil_to_escpos_raster dither (Mode1 b) = Ret cmd) :
  raster_dims cmd = Some ((bw b + 7) / 8, bh b)
  ∧ length cmd = (8 + Z.to_nat (bh b * ((bw b + 7) / 8)))%nat
  ∧ Forall (λ v, 0 ≤ v < 256) cmd
  ∧ ∀ x y, 0 ≤ x < bw b → 0 ≤ y < bh b →
      raster_dot cmd x y = negb (bpx b x y).
Proof.
  unfold pil_to_escpos_raster in Henc. simpl convert_1 in Henc.
  set (w_bytes := (bw b + 7) / 8) in *.
  assert (Hwb : 0 ≤ w_bytes) by (apply Z.div_pos; lia).
  destruct (to_bytes_little 2 w_bytes) as [wb | e] eqn:Ewb; [|discriminate Henc].
  destruct (to_bytes_little 2 (bh b)) as [hb | e] eqn:Ehb; [|discriminate Henc].
  apply to_bytes_little_2_inv in Ewb as [Hwfit ->].
  apply to_bytes_little_2_inv in Ehb as [Hhfit ->].
  injection Henc as <-.
  assert (Hinv : (λ v, Z.land (Z.lnot v) 255) <$> tobytes b
                 = (λ v, 255 - v) <$> tobytes b).
  { apply Forall_fmap_ext_1. eapply Forall_impl; [apply tobytes_range|].
    intros v Hv. by apply invert_byte. }
  rewrite Hinv.
  match goal with
  | |- raster_dims ?c = _ ∧ _ =>
      assert (Hdims : raster_dims c = Some (w_bytes, bh b))
  end.
  { simpl. unfold le16. f_equal. f_equal.
    - pose proof (Z.div_mod w_bytes 256 ltac:(lia)); lia.
    - pose proof (Z.div_mod (bh b) 256 ltac:(lia)); lia. }
  split; [done|]. split.
  { simpl length. rewrite length_fmap, tobytes_length. fold w_bytes.
    rewrite Z2Nat.inj_mul by lia. lia. }
  split.
  { assert (0 ≤ w_bytes / 256 < 256).
    { split; [apply Z.div_pos; lia | apply Z.div_lt_upper_bound; lia]. }
    assert (0 ≤ bh b / 256 < 256).
    { split; [apply Z.div_pos; lia | apply Z.div_lt_upper_bound; lia]. }
    pose proof (Z.mod_pos_bound w_bytes 256 ltac:(lia)).
    pose proof (Z.mod_pos_bound (bh b) 256 ltac:(lia)).
    do 8 (apply Forall_cons; split; [cbv beta; lia|]).
    apply Forall_fmap. eapply Forall_impl; [apply tobytes_range|].
    intros v Hv. unfold compose. cbv beta in Hv. lia. }
  intros x y Hx Hy. unfold raster_dot. rewrite Hdims.
  assert (Hceil : bw b ≤ 8 * w_bytes).
  { unfold w_bytes.
    pose proof (Z.div_mod (bw b + 7) 8 ltac:(lia)).
    pose proof (Z.mod_pos_bound (bw b + 7) 8 ltac:(lia)). lia. }
  assert (Hq : 0 ≤ x / 8 < w_bytes).
  { split; [apply Z.div_pos; lia|]. apply Z.div_lt_upper_bound; lia. }
  change (drop 8 _) with ((λ v, 255 - v) <$> tobytes b).
  rewrite Z2Nat.inj_add, Z2Nat.inj_mul by lia.
  rewrite list_lookup_fmap. unfold w_bytes. rewrite tobytes_lookup by done.
  simpl.
  pose proof (Z.mod_pos_bound x 8 ltac:(lia)).
  rewrite inverted_byte_bit by lia.
  replace (8 * (x / 8) + x mod 8) with x
    by (pose proof (Z.div_mod x 8 ltac:(lia)); lia).
  destruct (Z.ltb_spec x (bw b)); [done | lia].
Qed.

Lemma raster_roundtrip_witness :
  raster_dims [29; 118; 48; 0; 1; 0; 8; 0; 255; 255; 255; 255; 255; 255; 255; 255]
  = Some ((bw black8 + 7) / 8, bh black8).
Proof.
  refine (proj1 (raster_roundtrip blank_dither black8 _ _ _ _)).
  - simpl. lia.
  - simpl. lia.
  - reflexivity.
Defined.

(** ** Delivery: the calls of each path *)

(** X5. Whatever the environment does, the local path makes a prefix of
    one fixed sequence of calls: open one connection to port 9100, send
    the initialisation, the raster, four line feeds and (only with [cut])
    the cut command in a single message, close.  It makes no call at all
    without a printer address, reports success only after the whole
    sequence, and after a failed send it does not close the socket. *)
Theorem send_lan_image_calls (pil : Pillow) (env : NetEnv) (app : settings)
    (img : Image) (cut : bool) :
  trace (send_lan_image pil env app img cut)
    `prefix_of` lan_script pil app img cut
  ∧ (json_truthy (printer_ip_of app) = false →
     send_lan_image pil env app img cut = (Ret false, []))
  ∧ (outcome (send_lan_image pil env app img cut) = Ret true →
     trace (send_lan_image pil env app img cut) = lan_script pil app img cut
     ∧ ∃ raster, pil_to_escpos_raster (pil_dither pil) img = Ret raster)
  ∧ (∀ data e, sock_sendall env data = Some e →
     SockSendAll data ∈ trace (send_lan_image pil env app img cut) →
     SockClose ∉ trace (send_lan_image pil env app img cut)).
Proof.
  unfold send_lan_image, lan_script, printer_ip_of.
  set (ip := dict_get app "printer_ip" (JStr [])).
  destruct (json_truthy ip) eqn:Hip.
  2: { simpl. split; [by apply prefix_nil|]. split; [done|].
       split; [done|]. intros data e _ H. by apply elem_of_nil in H. }
  simpl negb. cbv iota.
  destruct (sock_connect env ip PRINTER_PORT) as [e|] eqn:Hconn.
  { run_effects.
    destruct (is_OSError e); cbv beta iota zeta; rewrite ?app_nil_r;
      (split; [by apply prefix_cons, prefix_nil|]);
      (split; [done|]); (split; [done|]);
      intros data e' _ Hin; apply list_elem_of_singleton in Hin;
      discriminate Hin. }
  destruct (pil_to_escpos_raster (pil_dither pil) img) as [raster | e'] eqn:Hr.
  2: { run_effects.
       destruct (is_OSError e'); cbv beta iota zeta; rewrite ?app_nil_r;
         (split; [done|]); (split; [done|]); (split; [done|]);
         intros data e _ Hin; apply list_elem_of_singleton in Hin;
         discriminate Hin. }
  run_effects. rewrite lan_commands_eq.
  destruct (sock_sendall env (lan_commands raster cut)) as [e|] eqn:Hsend.
  { destruct (is_OSError e); cbv beta iota zeta; rewrite ?app_nil_r;
      (split; [by apply prefix_cons, prefix_cons, prefix_nil|]);
      (split; [done|]); (split; [done|]);
      intros data e0 _ _ Hclose;
      repeat (apply elem_of_cons in Hclose as [Hclose | Hclose];
              [discriminate Hclose|]);
      by apply elem_of_nil in Hclose. }
  assert (Hsent : ∀ data e0 (t : list event),
            sock_sendall env data = Some e0 →
            SockSendAll data
              ∈ SockConnect ip PRINTER_PORT LAN_TIMEOUT_ms
                :: SockSendAll (lan_commands raster cut) :: t →
            (∀ d, SockSendAll d ∉ t) → False).
  { intros data e0 t Hdata Hin Ht.
    apply elem_of_cons in Hin as [Hin | Hin]; [discriminate Hin|].
    apply elem_of_cons in Hin as [Hin | Hin]; [|by apply Ht in Hin].
    injection Hin as ->. rewrite Hsend in Hdata. discriminate Hdata. }
  assert (Hno : ∀ d, SockSendAll d ∉ [SockClose]).
  { intros d Hd. apply list_elem_of_singleton in Hd. discriminate Hd. }
  destruct (sock_close env) as [e|] eqn:Hclose.
  - destruct (is_OSError e); cbv beta iota zeta; rewrite ?app_nil_r;
      (split; [done|]); (split; [done|]); (split; [done|]);
      intros data e0 Hdata Hin _; simpl in Hin;
      exact (Hsent _ _ _ Hdata Hin Hno).
  - cbv beta iota zeta. rewrite ?app_nil_r.
    split; [done|]. split; [done|]. split; [eauto|].
    intros data e0 Hdata Hin _. simpl in Hin.
    exact (Hsent _ _ _ Hdata Hin Hno).
Qed.

Ltac member_cases H :=
  repeat (apply elem_of_cons in H as [H | H];
          [try discriminate H|]);
  try (by apply elem_of_nil in H).

(** The calls of the cloud path: a prefix of the set-up calls when it
    raises, the set-up calls and the four broker calls when it succeeds;
    a publication follows a successful connection and carries the
    envelope of the image. *)
Lemma send_mqtt_image_trace pil env app img cut :
  (∀ e, outcome (send_mqtt_image pil env app img cut) = Raise e →
        trace (send_mqtt_image pil env app img cut)
          `prefix_of` client_setup_calls app)
  ∧ (json_truthy (mqtt_host_of app) = false ∨ paho_importable env = false →
     send_mqtt_image pil env app img cut = (Ret false, []))
  ∧ (outcome (send_mqtt_image pil env app img cut) = Ret true →
     trace (send_mqtt_image pil env app img cut)
       = client_setup_calls app ++ cloud_script pil env app img cut)
  ∧ (∀ topic payload qos,
       MqttPublish topic payload qos
         ∈ trace (send_mqtt_image pil env app img cut) →
       mqtt_connect env (mqtt_host_of app) (mqtt_port_of app) = None
       ∧ topic = mqtt_topic_of app
       ∧ payload = cloud_payload pil env img cut
       ∧ qos = 2).
Proof.
  unfold send_mqtt_image, client_setup_calls, cloud_script, cloud_payload,
    _apply_dither, mqtt_host_of, mqtt_port_of, mqtt_topic_of.
  set (host := dict_get app "mqtt_host" (JStr [])).
  set (port := dict_get app "mqtt_port" (JNum 8883)).
  set (topic := dict_get app "mqtt_topic" _).
  set (user := dict_get app "mqtt_user" (JStr [])).
  set (pw := dict_get app "mqtt_pass" (JStr [])).
  set (payload := {| ticket_id := py "desk-"; ticket_stamp := _;
                     data_type := _; data_image := _; cut_paper := _;
                     source := _ |}).
  assert (Hleaf : ∀ (r : result bool) (t : list event),
    (∀ e, r = Raise e → t `prefix_of` client_setup_calls app) →
    (r = Ret true →
     t = client_setup_calls app
         ++ [MqttConnect host port 30; MqttPublish topic payload 2;
             MqttLoop 2000; MqttDisconnect]) →
    (∀ tp pl qos, MqttPublish tp pl qos ∈ t →
       mqtt_connect env host port = None
       ∧ tp = topic ∧ pl = payload ∧ qos = 2) →
    json_truthy host = true → paho_importable env = true →
    (∀ e, outcome (r, t) = Raise e → t `prefix_of` client_setup_calls app)
    ∧ (json_truthy host = false ∨ paho_importable env = false →
       (r, t) = (Ret false, []))
    ∧ (outcome (r, t) = Ret true →
       t = client_setup_calls app
           ++ [MqttConnect host port 30; MqttPublish topic payload 2;
               MqttLoop 2000; MqttDisconnect])
    ∧ (∀ tp pl qos, MqttPublish tp pl qos ∈ t →
         mqtt_connect env host port = None
         ∧ tp = topic ∧ pl = payload ∧ qos = 2)).
  { intros r t H1 H2 H3 Hh Hp. split; [done|].
    split; [intros [? | ?]; congruence|]. by split. }
  unfold client_setup_calls in Hleaf. fold user pw in Hleaf.
  destruct (json_truthy host) eqn:Hhost.
  2: { cbn [negb]. run_effects. split; [discriminate|]. split; [done|].
       split; [discriminate|]. intros t p q H. by apply elem_of_nil in H. }
  destruct (paho_importable env) eqn:Hpaho.
  2: { cbn [negb]. run_effects. split; [discriminate|]. split; [done|].
       split; [discriminate|]. intros t p q H. by apply elem_of_nil in H. }
  cbn [negb].
  destruct (png_encode env img) as [e1|].
  { run_effects. apply Hleaf; try done.
    - intros e _. apply prefix_nil.
    - intros t p q H. by apply elem_of_nil in H. }
  destruct (mqtt_client env) as [e1|].
  { run_effects. apply Hleaf; try done.
    - intros e _. apply prefix_cons, prefix_nil.
    - intros t p q H. member_cases H. }
  destruct (json_truthy (dict_get app "mqtt_use_tls" (JBool true)));
    [destruct (mqtt_tls_set env) as [e1|]|].
  { run_effects. apply Hleaf; try done.
    - intros e _. apply prefix_cons, prefix_cons, prefix_nil.
    - intros t p q H. member_cases H. }
  all: destruct (json_truthy user);
    [destruct (mqtt_username_pw_set env user pw) as [e1|]|].
  all: try (run_effects; apply Hleaf; try done;
            [intros e _; cbn [app]; repeat apply prefix_cons;
             first [apply prefix_nil | done]
            |intros t p q H; simpl in H; member_cases H]).
  all: run_effects;
    destruct (mqtt_connect env host port);
    [|destruct (mqtt_publish env topic);
      [|destruct (mqtt_loop env); [|destruct (mqtt_disconnect env)]]];
    cbv beta iota zeta; apply Hleaf; try done;
    intros t p q H; simpl in H; member_cases H;
    injection H as -> -> ->; done.
Qed.

(** X6. The cloud path makes no call without a broker host or without the
    client library.  An exception leaves it exactly when one of the calls
    it makes before its [try] block raises: the encoding of the image, the
    construction of the client, [tls_set] or [username_pw_set]; the calls
    made are then a prefix of the set-up calls, so that no connection has
    been attempted.  Past the set-up it never raises.  A publication
    happens only after a successful connection, with quality of service 2,
    to the configured topic, and carries the dithered image and the cut
    flag; success is reported only after the set-up of the client (TLS
    unless switched off, credentials only for a truthy user name) followed
    by connect, publish, loop and disconnect. *)
Theorem send_mqtt_image_calls (pil : Pillow) (env : NetEnv) (app : settings)
    (img : Image) (cut : bool) :
  (∀ e, outcome (send_mqtt_image pil env app img cut) = Raise e
        ↔ cloud_setup_raises env app img e)
  ∧ (∀ e, outcome (send_mqtt_image pil env app img cut) = Raise e →
          trace (send_mqtt_image pil env app img cut)
            `prefix_of` client_setup_calls app)
  ∧ (json_truthy (mqtt_host_of app) = false ∨ paho_importable env = false →
     send_mqtt_image pil env app img cut = (Ret false, []))
  ∧ (outcome (send_mqtt_image pil env app img cut) = Ret true →
     trace (send_mqtt_image pil env app img cut)
       = client_setup_calls app ++ cloud_script pil env app img cut)
  ∧ (∀ topic payload qos,
       MqttPublish topic payload qos
         ∈ trace (send_mqtt_image pil env app img cut) →
       mqtt_connect env (mqtt_host_of app) (mqtt_port_of app) = None
       ∧ topic = mqtt_topic_of app
       ∧ payload = cloud_payload pil env img cut
       ∧ qos = 2).
Proof.
  split; [apply send_mqtt_image_cases | apply send_mqtt_image_trace].
Qed.

(** ** Manual cut *)

Lemma one_pixel_raster (dither : Image → Bitmap) :
  pil_to_escpos_raster dither one_pixel = Ret [29; 118; 48; 0; 1; 0; 1; 0; 255].
Proof. reflexivity. Qed.

Lemma manual_cut_cloud_outcome (env : NetEnv) (app : settings) :
  json_truthy (mqtt_host_of app) = true →
  (manual_cut_cloud env app (mqtt_host_of app)).1 = cut_cloud_succeeds env app
  ∧ (∀ topic payload qos,
       CutPublish topic payload qos
         ∈ (manual_cut_cloud env app (mqtt_host_of app)).2 →
       topic = mqtt_topic_of app
       ∧ payload = {| cut_ticket_id := py "cut-only";
                      cut_data_type := py "cmd";
                      cut_cut_paper := 1 |}
       ∧ qos = 2
       ∧ mqtt_connect env (mqtt_host_of app) (mqtt_port_of app) = None)
  ∧ (∀ data, CutCall (SockSendAll data)
               ∉ (manual_cut_cloud env app (mqtt_host_of app)).2).
Proof.
  intros Hhost.
  unfold manual_cut_cloud, manual_cut_calls, cut_cloud_succeeds,
    cloud_available, client_setup_ok, broker_calls_ok,
    mqtt_port_of, mqtt_topic_of.
  rewrite Hhost.
  set (host := mqtt_host_of app).
  set (port := dict_get app "mqtt_port" (JNum 8883)).
  set (topic := dict_get app "mqtt_topic" _).
  set (user := dict_get app "mqtt_user" (JStr [])).
  set (pw := dict_get app "mqtt_pass" (JStr [])).
  destruct (paho_importable env); cbn [negb andb].
  2: { split; [done|]. split; intros *; apply not_elem_of_nil ||
                                 (intros H; by apply elem_of_nil in H). }
  destruct (mqtt_client env) as [e1|].
  { cbn. split; [done|]. split; [intros t p q H | intros data H];
      member_cases H. }
  destruct (json_truthy (dict_get app "mqtt_use_tls" (JBool true)));
    [destruct (mqtt_tls_set env) as [e1|]|].
  { cbn. split; [done|]. split; [intros t p q H | intros data H];
      member_cases H. }
  all: destruct (json_truthy user);
    [destruct (mqtt_username_pw_set env user pw) as [e1|]|].
  all: try (cbn; split; [done|];
            split; [intros t p q H | intros data H]; member_cases H).
  all: destruct (mqtt_connect env host port);
    [|destruct (mqtt_publish env topic);
      [|destruct (mqtt_loop env); [|destruct (mqtt_disconnect env)]]];
    cbn; (split; [done|]);
    (split; [intros t p q H | intros data H]); member_cases H;
    injection H as -> -> ->; done.
Qed.

(** X7. Provided socket calls fail only with socket-level errors, a manual
    cut never raises and returns whether the local cut or, failing that,
    the cloud command went through; for the cloud command that includes
    the construction and configuration of the client, whose failures are
    caught like those of the broker calls.  What it sends to the printer
    is always the same 18 bytes (a one-row raster holding the byte 255
    between the initialisation and the feeds, then the cut command); the
    cloud command is published, with quality of service 2, only when the
    local cut did not succeed, and only after a successful connection. *)
Theorem send_manual_cut_outcome (pil : Pillow) (env : NetEnv) (app : settings)
    (Hsock : socket_errors_only env app) :
  (send_manual_cut pil env app).1
    = Ret (lan_cut_succeeds env app || cut_cloud_succeeds env app)
  ∧ (∀ data, CutCall (SockSendAll data) ∈ (send_manual_cut pil env app).2 →
             data = manual_cut_bytes)
  ∧ (∀ topic payload qos,
       CutPublish topic payload qos ∈ (send_manual_cut pil env app).2 →
       lan_cut_succeeds env app = false
       ∧ mqtt_connect env (mqtt_host_of app) (mqtt_port_of app) = None
       ∧ topic = mqtt_topic_of app
       ∧ payload = {| cut_ticket_id := py "cut-only";
                      cut_data_type := py "cmd";
                      cut_cut_paper := 1 |}
       ∧ qos = 2).
Proof.
  assert (Hcloud :
    ∀ (calls : list event),
      (∀ data, SockSendAll data ∈ calls → data = manual_cut_bytes) →
      let r :=
        (if negb (json_truthy (mqtt_host_of app))
         then (@Ret bool false, CutCall <$> calls)
         else let '(ok, cloud_calls) :=
                manual_cut_cloud env app (mqtt_host_of app) in
              (Ret ok, (CutCall <$> calls) ++ cloud_calls)) in
      r.1 = Ret (false || cut_cloud_succeeds env app)
      ∧ (∀ data, CutCall (SockSendAll data) ∈ r.2 → data = manual_cut_bytes)
      ∧ (∀ topic payload qos, CutPublish topic payload qos ∈ r.2 →
           false = false
           ∧ mqtt_connect env (mqtt_host_of app) (mqtt_port_of app) = None
           ∧ topic = mqtt_topic_of app
           ∧ payload = {| cut_ticket_id := py "cut-only";
                          cut_data_type := py "cmd";
                          cut_cut_paper := 1 |}
           ∧ qos = 2)).
  { intros calls Hcalls.
    assert (Hlift : ∀ data, CutCall (SockSendAll data) ∈ CutCall <$> calls →
                            data = manual_cut_bytes).
    { intros data (ev & Hev & Hin)%list_elem_of_fmap.
      injection Hev as <-. by apply Hcalls. }
    assert (Hnopub : ∀ t p q, CutPublish t p q ∉ CutCall <$> calls).
    { intros t p q (ev & Hev & _)%list_elem_of_fmap. discriminate Hev. }
    destruct (json_truthy (mqtt_host_of app)) eqn:Hhost; cbn [negb orb]; cbv zeta.
    - destruct (manual_cut_cloud_outcome env app Hhost)
        as (Hok & Hpub & Hcloud_calls).
      destruct (manual_cut_cloud env app (mqtt_host_of app)) as [ok cc].
      simpl in *. subst ok. split; [done|]. split.
      + intros data [H | H]%elem_of_app; [by apply Hlift|].
        by apply Hcloud_calls in H.
      + intros t p q [H | H]%elem_of_app; [by apply Hnopub in H|].
        destruct (Hpub t p q H) as (? & ? & ? & ?). done.
    - simpl. split.
      { unfold cut_cloud_succeeds, cloud_available. by rewrite Hhost. }
      split; [done|]. intros t p q H. by apply Hnopub in H. }
  unfold send_manual_cut, send_lan_image.
  fold (printer_ip_of app). fold (mqtt_host_of app).
  unfold socket_errors_only in Hsock.
  destruct (json_truthy (printer_ip_of app)) eqn:Hip.
  2: { assert (Hlan : lan_cut_succeeds env app = false)
         by (unfold lan_cut_succeeds; by rewrite Hip).
       rewrite Hlan. cbn [negb]. unfold mret, M_ret. cbv iota.
       apply (Hcloud []). intros data H. by apply elem_of_nil in H. }
  cbn [negb]. rewrite one_pixel_raster.
  destruct (sock_connect env (printer_ip_of app) PRINTER_PORT) as [e|] eqn:Hconn.
  { assert (Hlan : lan_cut_succeeds env app = false)
      by (unfold lan_cut_succeeds; by rewrite Hip, Hconn).
    rewrite Hlan.
    cbv beta iota zeta delta
      [try_except call emit lift raise mbind M_bind mret M_ret].
    rewrite (Hsock e) by auto. cbv beta iota zeta.
    match goal with
    | |- context [CutCall <$> ?t] => apply (Hcloud t)
    end.
    intros data H. simpl in H. member_cases H. }
  cbv beta iota zeta delta
    [try_except call emit lift raise mbind M_bind mret M_ret].
  change (([27; 64] ++ [29; 118; 48; 0; 1; 0; 1; 0; 255] ++ replicate 4 10)
          ++ [29; 86; 0]) with manual_cut_bytes.
  destruct (sock_sendall env manual_cut_bytes) as [e|] eqn:Hsend.
  { assert (Hlan : lan_cut_succeeds env app = false).
    { unfold lan_cut_succeeds. rewrite Hip, Hconn, Hsend. done. }
    rewrite Hlan. rewrite (Hsock e) by eauto. cbv beta iota zeta.
    match goal with
    | |- context [CutCall <$> ?t] => apply (Hcloud t)
    end.
    intros data H. simpl in H. member_cases H. by injection H as ->. }
  destruct (sock_close env) as [e|] eqn:Hclose.
  { assert (Hlan : lan_cut_succeeds env app = false).
    { unfold lan_cut_succeeds. rewrite Hip, Hconn, Hsend, Hclose. done. }
    rewrite Hlan. rewrite (Hsock e) by eauto. cbv beta iota zeta.
    match goal with
    | |- context [CutCall <$> ?t] => apply (Hcloud t)
    end.
    intros data H. simpl in H. member_cases H. by injection H as ->. }
  assert (Hlan : lan_cut_succeeds env app = true).
  { unfold lan_cut_succeeds. rewrite Hip, Hconn, Hsend, Hclose. done. }
  rewrite Hlan. cbv beta iota zeta.
  split; [done|]. split.
  - intros data H. simpl in H. member_cases H. by injection H as ->.
  - intros t p q H. simpl in H. member_cases H.
Qed.


Lemma send_manual_cut_outcome_witness :
  (send_manual_cut plain_pillow net_up both_configured).1
  = Ret (lan_cut_succeeds net_up both_configured
         || cut_cloud_succeeds net_up both_configured).
Proof.
  refine (proj1 (send_manual_cut_outcome plain_pillow net_up both_configured _)).
  intros e [H | [[data H] | H]]; vm_compute in H; discriminate H.
Defined.

(** ** LaTeX engine: workspace, results and errors *)

Ltac split_exn e :=
  destruct e as [| | | | | | | | | ?msg | ?name].

(** X8. Once the temporary directory has been created, the last call of
    [render_with_pdflatex] is [shutil.rmtree] on it (with errors ignored),
    whether an image is returned or an exception raised.  [mkdtemp] and
    [rmtree] are each called once; [subprocess.run] is called at most
    once, and [convert_from_path] at most once and only after a
    compilation that exited with status zero.  When the converter library
    is missing, no call is made at all; when [mkdtemp] raises, no other
    call is made. *)
Theorem render_with_pdflatex_cleanup (pil : Pillow) (env : TexEnv)
    (latex_code : pystr) :
  if pdf2image_importable env then
    match mkdtemp env with
    | Some e => render_with_pdflatex pil env latex_code = (Raise e, [Mkdtemp])
    | None =>
        ∃ body,
          trace (render_with_pdflatex pil env latex_code)
            = Mkdtemp :: body ++ [Rmtree]
          ∧ (Mkdtemp ∉ body) ∧ (Rmtree ∉ body)
          ∧ (length (filter (λ ev, is_subprocess_run ev = true) body) ≤ 1)%nat
          ∧ (length (filter (λ ev, is_conversion ev = true) body) ≤ 1)%nat
          ∧ (∀ dpi, ConvertPdf dpi ∈ body →
                    write_tex env = None ∧ pdflatex_run env 0 = None)
    end
  else
    render_with_pdflatex pil env latex_code
    = (Raise (RuntimeError (py "pdf2image library is missing.")), []).
Proof.
  unfold render_with_pdflatex.
  destruct (pdf2image_importable env); [|done]. cbn [negb].
  destruct (mkdtemp env) as [e|]; [done|].
  set (W := WriteFile "ticket.tex" (tex_source latex_code)) in *.
  assert (Hpick : ∀ (t body : list event),
            t = Mkdtemp :: body ++ [Rmtree] →
            body = [W] ∨ body = [W; RunProcess pdflatex_cmd]
            ∨ body = [W; RunProcess pdflatex_cmd; ReadLog]
            ∨ (body = [W; RunProcess pdflatex_cmd; ConvertPdf 203]
               ∧ write_tex env = None ∧ pdflatex_run env 0 = None) →
            ∃ body, t = Mkdtemp :: body ++ [Rmtree]
                    ∧ (Mkdtemp ∉ body) ∧ (Rmtree ∉ body)
                    ∧ (length (filter (λ ev, is_subprocess_run ev = true) body)
                       ≤ 1)%nat
                    ∧ (length (filter (λ ev, is_conversion ev = true) body)
                       ≤ 1)%nat
                    ∧ (∀ dpi, ConvertPdf dpi ∈ body →
                              write_tex env = None
                              ∧ pdflatex_run env 0 = None)).
  { intros t body -> Hbody. exists body. split; [done|].
    destruct Hbody as [-> | [-> | [-> | (-> & Hw & Hr)]]];
      (split; [intros H; member_cases H|]);
      (split; [intros H; member_cases H|]);
      (split; [vm_compute; lia|]);
      (split; [vm_compute; lia|]);
      intros dpi H; member_cases H; done. }
  destruct (write_tex env) as [e|] eqn:Hw.
  { run_effects. by apply (Hpick _ [W]); [|left]. }
  destruct (pdflatex_run env 0) as [e|] eqn:Hr.
  { split_exn e; run_effects;
      first [by apply (Hpick _ [W; RunProcess pdflatex_cmd]); [|right; left]
            |by apply (Hpick _ [W; RunProcess pdflatex_cmd; ReadLog]);
               [|right; right; left]]. }
  destruct (convert_from_path env) as [[|first rest] | e];
    run_effects;
    by apply (Hpick _ [W; RunProcess pdflatex_cmd; ConvertPdf 203]);
      [|right; right; right].
Qed.

(** X9. [render_with_pdflatex] returns an image exactly when the converter
    library is present, the workspace and the source file could be
    written, the single compilation exited with status zero and the
    converter produced at least one page; the image is then the first
    page with its white border trimmed. *)
Theorem render_with_pdflatex_success (pil : Pillow) (env : TexEnv)
    (latex_code : pystr) (img : Image) :
  outcome (render_with_pdflatex pil env latex_code) = Ret img
  ↔ pdf2image_importable env = true
    ∧ mkdtemp env = None
    ∧ write_tex env = None
    ∧ pdflatex_run env 0 = None
    ∧ ∃ first rest, convert_from_path env = Ret (first :: rest)
                    ∧ img = pil_trim pil first.
Proof.
  unfold render_with_pdflatex. split.
  - destruct (pdf2image_importable env); [|discriminate]. cbn [negb].
    destruct (mkdtemp env) as [e|]; [discriminate|].
    destruct (write_tex env) as [e|]; [discriminate|].
    destruct (pdflatex_run env 0) as [e|].
    { split_exn e; run_effects; discriminate. }
    destruct (convert_from_path env) as [[|first rest] | e];
      run_effects; try discriminate.
    intros [= <-]. eauto 10.
  - intros (-> & -> & -> & -> & first & rest & -> & ->). reflexivity.
Qed.

(** X10. The exceptions of [render_with_pdflatex] are of two kinds only.
    Either it is one the function words itself: a missing converter
    library, a compiler that cannot be started, a compilation that exits
    with an error (the message then ends with the last characters of the
    log), or a document without pages; or it is an exception raised by
    one of its external calls, passed on unchanged.  The two compiler
    failures are never confused: the log is read for a failed compilation
    only. *)
Theorem render_with_pdflatex_errors (pil : Pillow) (env : TexEnv)
    (latex_code : pystr) (e : exn) :
  outcome (render_with_pdflatex pil env latex_code) = Raise e →
  (e = RuntimeError MSG_NO_PDF2IMAGE ∧ pdf2image_importable env = false)
  ∨ (e = RuntimeError MSG_NO_PDFLATEX
     ∧ pdflatex_run env 0 = Some FileNotFoundError
     ∧ ReadLog ∉ trace (render_with_pdflatex pil env latex_code))
  ∨ (e = RuntimeError (compile_error_message env)
     ∧ pdflatex_run env 0 = Some CalledProcessError
     ∧ ReadLog ∈ trace (render_with_pdflatex pil env latex_code))
  ∨ (e = RuntimeError MSG_NO_PAGE ∧ convert_from_path env = Ret [])
  ∨ raised_outside env e.
Proof.
  unfold render_with_pdflatex, raised_outside.
  destruct (pdf2image_importable env).
  2: { intros [= <-]. by left. }
  cbn [negb].
  destruct (mkdtemp env) as [e0|]; [intros [= <-]; auto 10|].
  destruct (write_tex env) as [e0|]; [intros [= <-]; auto 10|].
  destruct (pdflatex_run env 0) as [e0|].
  { split_exn e0; run_effects; intros [= <-]; auto 10.
    - right. left. split; [done|]. split; [done|].
      intros H. simpl in H. member_cases H.
    - right. right. left. split; [done|]. split; [done|].
      simpl. set_solver. }
  destruct (convert_from_path env) as [[|first rest] | e0];
    run_effects; intros [= <-]; auto 10.
Qed.

Lemma render_with_pdflatex_errors_witness :
  (RuntimeError (compile_error_message tex_missing_package)
     = RuntimeError MSG_NO_PDF2IMAGE
   ∧ pdf2image_importable tex_missing_package = false)
  ∨ (RuntimeError (compile_error_message tex_missing_package)
       = RuntimeError MSG_NO_PDFLATEX
     ∧ pdflatex_run tex_missing_package 0 = Some FileNotFoundError
     ∧ ReadLog ∉ trace (render_with_pdflatex plain_pillow tex_missing_package
                          (py "x")))
  ∨ (RuntimeError (compile_error_message tex_missing_package)
       = RuntimeError (compile_error_message tex_missing_package)
     ∧ pdflatex_run tex_missing_package 0 = Some CalledProcessError
     ∧ ReadLog ∈ trace (render_with_pdflatex plain_pillow tex_missing_package
                          (py "x")))
  ∨ (RuntimeError (compile_error_message tex_missing_package)
       = RuntimeError MSG_NO_PAGE
     ∧ convert_from_path tex_missing_package = Ret [])
  ∨ raised_outside tex_missing_package
      (RuntimeError (compile_error_message tex_missing_package)).
Proof.
  apply (render_with_pdflatex_errors plain_pillow tex_missing_package (py "x")).
  reflexivity.
Defined.

(** ** LaTeX engine: the composed canvas *)

(** X11. When the page is rendered, [render_latex_image] returns a canvas
    576 pixels wide that carries the title (one line, unwrapped, when
    non-empty), the timestamp (when requested) and, last, the picture: the
    page itself, or the page resampled to 540 pixels when it is wider.
    The picture is centred, keeps the 18-pixel margins on both sides,
    starts 28 pixels from the top plus 50 for the title and 30 for the
    timestamp, and is followed by the 40-pixel bottom margin.  The one
    exception is a page wider than 540 pixels whose resampled height is
    not positive: the resize raises [ValueError], and the call returns the
    error receipt for it. *)
Theorem render_latex_image_layout (pil : Pillow) (env : TexEnv)
    (renv : RenderEnv) (latex_code title : pystr) (add_dt : bool)
    (page : Image)
    (Htool : toolchain_present env = true)
    (Hpage : outcome (render_with_pdflatex pil env latex_code) = Ret page) :
  if (540 <? (size page).1)
     && (pil_scale pil (size page).2 540 (size page).1 <=? 0)
  then
    outcome (render_latex_image pil env renv latex_code title add_dt)
    = Ret (latex_error_receipt env renv ValueError)
  else
    ∃ (pic : Image) (header : list DrawOp) (x y : Z),
      outcome (render_latex_image pil env renv latex_code title add_dt)
        = Ret (Canvas PRINT_WIDTH_PX (y + (size pic).2 + MARGIN_B)
                 (header ++ [Paste pic x y]))
      ∧ pic = (if 540 <? (size page).1
               then Resized page 540
                      (pil_scale pil (size page).2 540 (size page).1)
               else page)
      ∧ (size pic).1 ≤ 540
      ∧ MARGIN_L ≤ x ∧ x + (size pic).1 ≤ PRINT_WIDTH_PX - MARGIN_R
      ∧ 0 ≤ PRINT_WIDTH_PX - (size pic).1 - 2 * x ≤ 1
      ∧ y = MARGIN_T + (if py_truthy title then 50 else 0)
            + (if add_dt then 30 else 0)
      ∧ drawn_text <$> header
        = Some <$> ((if py_truthy title then [title] else [])
                    ++ (if add_dt then [strftime (now renv)] else [])).
Proof.
  unfold render_latex_image. rewrite check_pdflatex_outcome.
  unfold toolchain_present in Htool.
  destruct (render_with_pdflatex pil env latex_code) as [r t].
  unfold outcome in Hpage. cbn [fst] in Hpage. subst r.
  run_effects. rewrite Htool.
  destruct (size page) as [w h] eqn:Hsize. cbn [fst snd].
  change (PRINT_WIDTH_PX - MARGIN_L - MARGIN_R) with 540.
  unfold PRINT_WIDTH_PX, MARGIN_L, MARGIN_R, MARGIN_T, MARGIN_B.
  assert (Hcentre : ∀ w', w' ≤ 540 →
            18 ≤ (576 - w') / 2 ∧ (576 - w') / 2 + w' ≤ 576 - 18
            ∧ 0 ≤ 576 - w' - 2 * ((576 - w') / 2) ≤ 1).
  { intros w' Hw'.
    pose proof (Z.div_mod (576 - w') 2 ltac:(lia)).
    pose proof (Z.mod_pos_bound (576 - w') 2 ltac:(lia)). lia. }
  destruct (Z.ltb_spec 540 w) as [Hwide | Hfits]; cbn [andb].
  - unfold resize. change (540 <=? 0) with false. cbn [orb].
    destruct (pil_scale pil h 540 w <=? 0).
    { unfold latex_error_receipt. reflexivity. }
    destruct (Hcentre 540 ltac:(lia)) as (? & ? & ?).
    destruct (py_truthy title), add_dt; cbv beta iota zeta; cbn [size fst snd];
      exists (Resized page 540 (pil_scale pil h 540 w));
      eexists _, ((576 - 540) / 2), _; cbn [size fst snd];
      (split; [reflexivity|]); repeat split; try done; lia.
  - destruct (Hcentre w ltac:(lia)) as (? & ? & ?).
    destruct (py_truthy title), add_dt; cbv beta iota zeta; cbn [size fst snd];
      exists page; eexists _, ((576 - w) / 2), _; rewrite ?Hsize;
      cbn [fst snd];
      (split; [reflexivity|]); repeat split; try done; lia.
Qed.

Lemma render_latex_image_layout_witness :
  ∃ (pic : Image) (header : list DrawOp) (x y : Z),
    outcome (render_latex_image plain_pillow tex_ok clock_example
               (py "x") (py "Sum") true)
      = Ret (Canvas PRINT_WIDTH_PX (y + (size pic).2 + MARGIN_B)
               (header ++ [Paste pic x y]))
    ∧ pic = (if 540 <? (size gray_page).1
             then Resized gray_page 540
                    (pil_scale plain_pillow (size gray_page).2 540
                       (size gray_page).1)
             else gray_page)
    ∧ (size pic).1 ≤ 540
    ∧ MARGIN_L ≤ x ∧ x + (size pic).1 ≤ PRINT_WIDTH_PX - MARGIN_R
    ∧ 0 ≤ PRINT_WIDTH_PX - (size pic).1 - 2 * x ≤ 1
    ∧ y = MARGIN_T + (if py_truthy (py "Sum") then 50 else 0)
          + (if true then 30 else 0)
    ∧ drawn_text <$> header
      = Some <$> ((if py_truthy (py "Sum") then [py "Sum"] else [])
                  ++ (if true then [strftime (now clock_example)] else [])).
Proof.
  exact (render_latex_image_layout plain_pillow tex_ok clock_example
           (py "x") (py "Sum") true gray_page eq_refl eq_refl).
Defined.

(** ** LaTeX engine: the generated source and the textual clean-up *)

Lemma starts_with_app (p s : pystr) : starts_with p (p ++ s) = true.
Proof.
  induction p as [|a p IH]; [done|]. simpl. by rewrite N.eqb_refl, IH.
Qed.

Lemma py_contains_unfold (needle hay : pystr) :
  py_contains needle hay
  = starts_with needle hay
    || match hay with [] => false | _ :: r => py_contains needle r end.
Proof. by destruct hay. Qed.

Lemma py_contains_infix (a needle b : pystr) :
  py_contains needle (a ++ needle ++ b) = true.
Proof.
  induction a as [|c a IH].
  - change ([] ++ needle ++ b) with (needle ++ b).
    rewrite py_contains_unfold. by rewrite starts_with_app.
  - change ((c :: a) ++ needle ++ b) with (c :: (a ++ needle ++ b)).
    rewrite py_contains_unfold, IH. apply orb_true_r.
Qed.

Lemma py_contains_self (s : pystr) : py_contains s s = true.
Proof.
  pose proof (py_contains_infix [] s []) as H.
  by rewrite app_nil_l, app_nil_r in H.
Qed.

(** X12. The source handed to the compiler is always the fixed template
    with the user's markup placed, character for character, between its
    head and its tail: either as it is or between the six characters of
    the display-math delimiters.  The template is put around the markup
    even when that is a complete document of its own. *)
Theorem tex_source_embeds (latex_code : pystr) :
  ∃ mid,
    tex_source latex_code = tex_template_head ++ mid ++ tex_template_tail
    ∧ (mid = latex_code ∨ mid = py "\[ " ++ latex_code ++ py " \]")
    ∧ py_contains latex_code mid = true
    ∧ py_contains latex_code (tex_source latex_code) = true
    ∧ (py_contains (py "\begin{document}") latex_code = true →
       mid = latex_code).
Proof.
  unfold tex_source.
  destruct (py_contains (py "\begin{document}") latex_code) eqn:Hdoc.
  - exists latex_code. cbn [orb negb]. split; [done|]. split; [by left|].
    split; [|split; [|done]].
    + apply py_contains_self.
    + apply py_contains_infix.
  - cbn [orb].
    destruct (py_contains (py "\section") latex_code); cbn [negb].
    + exists latex_code. split; [done|]. split; [by left|].
      split; [|split; [|done]].
      * apply py_contains_self.
      * apply py_contains_infix.
    + destruct (py_contains (py "\begin{tikzpicture}") latex_code
                || py_contains (py "$$") latex_code
                || py_contains (py "\[") latex_code); cbn [negb].
      * exists latex_code. split; [done|]. split; [by left|].
        split; [|split; [|done]].
        -- apply py_contains_self.
        -- apply py_contains_infix.
      * exists (py "\[ " ++ latex_code ++ py " \]").
        split; [done|]. split; [by right|].
        split; [apply py_contains_infix|]. split; [|done].
        rewrite <- !app_assoc.
        rewrite (app_assoc tex_template_head (py "\[ ")).
        apply py_contains_infix.
Qed.

Lemma starts_with_absent (c0 : pychar) (rest s : pystr) :
  c0 ∉ s → starts_with (c0 :: rest) s = false.
Proof.
  intros Hc. destruct s as [|b s]; [done|]. simpl.
  destruct (N.eqb_spec c0 b) as [-> | _]; [|done].
  exfalso. apply Hc. by left.
Qed.

Lemma replace_from_absent (c0 : pychar) (rest new s : pystr) :
  c0 ∉ s → replace_from (c0 :: rest) new 0 s = s.
Proof.
  induction s as [|c s IH]; intros Hc; [done|].
  cbn [replace_from]. rewrite starts_with_absent by done.
  rewrite IH; [done|]. intros H. apply Hc. by right.
Qed.

Lemma sub_section_absent (new s : pystr) :
  92%N ∉ s → sub_section_from new 0 s = s.
Proof.
  induction s as [|c s IH]; intros Hc; [done|].
  cbn [sub_section_from]. unfold match_section.
  change (py "\section") with (92%N :: py "section").
  rewrite starts_with_absent by done.
  rewrite IH; [done|]. intros H. apply Hc. by right.
Qed.

(** X13. The clean-up of the Matplotlib fallback leaves every text without
    a dollar sign and without a backslash exactly as it is. *)
Theorem clean_markup_plain (latex_code : pystr)
    (Hplain : ∀ c, c ∈ latex_code → c ≠ 36%N ∧ c ≠ 92%N) :
  clean_markup latex_code = latex_code.
Proof.
  assert (H36 : 36%N ∉ latex_code) by (intros H; by destruct (Hplain _ H)).
  assert (H92 : 92%N ∉ latex_code) by (intros H; by destruct (Hplain _ H)).
  unfold clean_markup, py_replace.
  change (py "$$") with (36%N :: py "$").
  rewrite replace_from_absent by done.
  rewrite sub_section_absent by done.
  change (py "\begin{itemize}") with (92%N :: py "begin{itemize}").
  rewrite replace_from_absent by done.
  change (py "\end{itemize}") with (92%N :: py "end{itemize}").
  rewrite replace_from_absent by done.
  change (py "\item") with (92%N :: py "item").
  by rewrite replace_from_absent.
Qed.

Lemma clean_markup_plain_witness :
  clean_markup (py "2 eggs, 1 l milk") = py "2 eggs, 1 l milk".
Proof.
  apply clean_markup_plain. intros c Hc.
  vm_compute in Hc. member_cases Hc; subst c; done.
Defined.

(** ** Settings: round trip and the recognised keys *)

(** X14. After the settings have been loaded (from whatever file state), a
    successful save writes the complete in-memory dictionary, and loading
    again gives back exactly that dictionary. *)
Theorem save_then_load (st0 : settings_state) (data : settings) :
  let st1 := (load_settings st0).1.2 in
  let saved := save_settings WriteOk data st1 in
  returned saved.1 = true
  ∧ SETTINGS_FILE saved.2 = FileObject (APP_SETTINGS saved.2)
  ∧ (load_settings saved.2).1.1 = APP_SETTINGS saved.2
  ∧ APP_SETTINGS (load_settings saved.2).1.2 = APP_SETTINGS saved.2.
Proof.
  assert (Hkeep : ∀ m : settings,
            dict_update DEFAULT_SETTINGS (dict_update (dict_update DEFAULT_SETTINGS m) data)
            = dict_update (dict_update DEFAULT_SETTINGS m) data).
  { intros m. apply map_eq. intros k. rewrite !dict_update_lookup.
    destruct (data !! k), (m !! k), (DEFAULT_SETTINGS !! k); done. }
  assert (Hkeep0 :
            dict_update DEFAULT_SETTINGS (dict_update DEFAULT_SETTINGS data)
            = dict_update DEFAULT_SETTINGS data).
  { apply map_eq. intros k. rewrite !dict_update_lookup.
    destruct (data !! k), (DEFAULT_SETTINGS !! k); done. }
  unfold load_settings, save_settings.
  destruct (SETTINGS_FILE st0) as [| |file]; simpl; by rewrite ?Hkeep, ?Hkeep0.
Qed.

Lemma dict_update_keeps_keys (d data : settings) (k : string) :
  is_Some (d !! k) → is_Some (dict_update d data !! k).
Proof.
  intros Hk. rewrite dict_update_lookup. by destruct (data !! k).
Qed.

(** X15. From the first load on, every recognised key has a value in
    [APP_SETTINGS], and no sequence of saves, successful or failed, takes
    one away: looking up a recognised setting never fails. *)
Theorem recognized_keys_stay_set (st0 : settings_state)
    (saves : list (write_outcome * settings)) (k : string) :
  k ∈ recognized_keys →
  is_Some
    (APP_SETTINGS
       (foldl (λ st '(w, data), (save_settings w data st).2)
              (load_settings st0).1.2 saves) !! k).
Proof.
  intros Hk.
  assert (Hdefault : is_Some (DEFAULT_SETTINGS !! k)).
  { apply elem_of_dom. unfold DEFAULT_SETTINGS. rewrite dom_list_to_map_L.
    by apply elem_of_list_to_set. }
  assert (Hload : is_Some (APP_SETTINGS (load_settings st0).1.2 !! k)).
  { unfold load_settings. destruct (SETTINGS_FILE st0); simpl; [done..|].
    by apply dict_update_keeps_keys. }
  revert Hload. generalize (load_settings st0).1.2.
  induction saves as [|[w data] saves IH]; intros st Hst; [done|].
  simpl. apply IH.
  unfold save_settings. destruct w; simpl; by apply dict_update_keeps_keys.
Qed.

Lemma recognized_keys_stay_set_witness :
  is_Some
    (APP_SETTINGS
       (foldl (λ st '(w, data), (save_settings w data st).2)
              (load_settings file_with_unknown_key).1.2
              [(OpenRaises PermissionError, new_printer_ip);
               (WriteOk, new_printer_ip)]) !! "mqtt_topic"%string).
Proof.
  apply (recognized_keys_stay_set file_with_unknown_key
           [(OpenRaises PermissionError, new_printer_ip);
            (WriteOk, new_printer_ip)] "mqtt_topic"%string).
  unfold recognized_keys. set_solver.
Defined.

(** ** Batch printing *)

Lemma starts_with_split (d s : pystr) :
  starts_with d s = true → s = d ++ drop (length d) s.
Proof.
  revert s. induction d as [|a d IH]; intros s H; [done|].
  destruct s as [|b s]; [done|]. simpl in H.
  apply andb_true_iff in H as [Hab Hrest].
  apply N.eqb_eq in Hab as ->. simpl. f_equal. by apply IH.
Qed.

Lemma starts_with_extend (d s t : pystr) :
  starts_with d s = true → starts_with d (s ++ t) = true.
Proof.
  revert s. induction d as [|a d IH]; intros s H; [done|].
  destruct s as [|b s]; [done|]. simpl in *.
  apply andb_true_iff in H as [-> Hrest]. simpl. by apply IH.
Qed.

(** The first occurrence: what precedes it holds no occurrence. *)
Lemma split_first_spec (d s : pystr) :
  d ≠ [] → py_contains d s = true →
  ∃ t b, split_first d s = Some (t, b)
         ∧ s = t ++ d ++ b
         ∧ py_contains d t = false.
Proof.
  intros Hd. induction s as [|c s IH]; intros Hin.
  - destruct d; [done|]. discriminate Hin.
  - rewrite py_contains_unfold in Hin.
    destruct (starts_with d (c :: s)) eqn:Hhead.
    + exists [], (drop (length d) (c :: s)).
      split; [by (simpl; rewrite Hhead)|]. split.
      * by apply starts_with_split.
      * by destruct d.
    + simpl in Hin. destruct (IH Hin) as (t & b & Hsplit & -> & Hnone).
      exists (c :: t), b. split; [|split; [done|]].
      * cbn [split_first]. rewrite Hhead.
        change (split_first d (t ++ d ++ b) = Some (t, b)) in Hsplit.
        by rewrite Hsplit.
      * rewrite py_contains_unfold, Hnone, orb_false_r.
        destruct (starts_with d (c :: t)) eqn:Hs; [|done].
        apply (starts_with_extend _ _ (d ++ b)) in Hs.
        change ((c :: t) ++ d ++ b) with (c :: t ++ d ++ b) in Hs.
        congruence.
Qed.

(** X16. How a batch line becomes a ticket.  With an empty delimiter every
    line is refused with [ValueError], and with a delimiter that is not a
    string with [TypeError].  Otherwise a line without the delimiter is
    the title, with one empty body line; a line with the delimiter is cut
    at its first occurrence, so that the (unstripped) title holds no
    delimiter while the body keeps any further ones; title and body are
    stripped. *)
Theorem bulk_ticket_cut (delimiter : json) (d ln : pystr) :
  bulk_ticket (JStr []) ln = Raise ValueError
  ∧ ((∀ s, delimiter ≠ JStr s) → bulk_ticket delimiter ln = Raise TypeError)
  ∧ (d ≠ [] → py_contains d ln = false →
     bulk_ticket (JStr d) ln = Ret (py_strip ln, [[]]))
  ∧ (d ≠ [] → py_contains d ln = true →
     ∃ t b, ln = t ++ d ++ b
            ∧ py_contains d t = false
            ∧ bulk_ticket (JStr d) ln = Ret (py_strip t, [py_strip b])).
Proof.
  split; [|split; [|split]].
  - unfold bulk_ticket. by destruct ln.
  - intros Hother. destruct delimiter as [| | |s| |]; try done.
    by destruct (Hother s).
  - intros Hd Hno. unfold bulk_ticket. by rewrite Hno.
  - intros Hd Hin.
    destruct (split_first_spec d ln Hd Hin) as (t & b & Hsplit & Heq & Hnone).
    exists t, b. split; [done|]. split; [done|].
    unfold bulk_ticket. rewrite Hin, Hsplit. by destruct d.
Qed.

Lemma outcome_bind {A B} (m : M A) (f : A → M B) :
  outcome (m ≫= f)
  = match outcome m with
    | Ret a => outcome (f a)
    | Raise e => Raise e
    end.
Proof.
  destruct m as [[a | e] t]; [|done].
  unfold outcome, mbind, M_bind. simpl. by destruct (f a).
Qed.

Lemma ticket_lines_cons (ln : pystr) (rest : list pystr) :
  ticket_lines (ln :: rest)
  = if py_truthy (py_strip ln) then ln :: ticket_lines rest
    else ticket_lines rest.
Proof.
  unfold ticket_lines. rewrite filter_cons.
  destruct (py_truthy (py_strip ln)); by case_decide.
Qed.

Lemma ticket_lines_length (lines : list pystr) :
  (length (ticket_lines lines) ≤ length lines)%nat.
Proof. apply length_filter. Qed.

Lemma bulk_loop_count pil net app renv delimiter use_dt do_cut
    (lines : list pystr) :
  ∀ k count c,
    outcome (bulk_loop pil net app renv delimiter use_dt do_cut lines k count)
      = Ret c →
    (count ≤ c ≤ count + length (ticket_lines lines))%nat.
Proof.
  induction lines as [|ln rest IH]; intros k count c Hc.
  - injection Hc as <-. simpl. lia.
  - rewrite ticket_lines_cons. cbn [bulk_loop] in Hc.
    destruct (py_truthy (py_strip ln)); cbn [negb] in Hc.
    + rewrite outcome_bind in Hc.
      destruct (bulk_ticket delimiter ln) as [ticket | e];
        [|discriminate Hc].
      cbn [lift outcome fst] in Hc. rewrite outcome_bind in Hc.
      destruct (outcome (print_master _ _ _ _ _)) as [res | e];
        [|discriminate Hc].
      apply IH in Hc. simpl length.
      destruct (py_contains (py "OK") res); lia.
    + apply IH in Hc. lia.
Qed.

(** X17. When the batch task returns, its status text is "Bulk: c/n
    printed", where n is the number of lines of the input, blank ones
    included, and c counts the tickets whose outcome held "OK"; c is at
    most the number of non-blank lines. *)
Theorem bulk_task_count (pil : Pillow) (net : nat → NetEnv) (app : settings)
    (renv : nat → RenderEnv) (delimiter : json) (use_dt do_cut : bool)
    (raw status : pystr)
    (Hdone : outcome (bulk_task pil net app renv delimiter use_dt do_cut raw)
             = Ret status) :
  ∃ count : nat,
    status = bulk_report count (length (py_splitlines raw))
    ∧ (count ≤ length (ticket_lines (py_splitlines raw))
         ≤ length (py_splitlines raw))%nat.
Proof.
  unfold bulk_task in Hdone. rewrite outcome_bind in Hdone.
  destruct (outcome (bulk_loop _ _ _ _ _ _ _ _ _ _)) as [c | e] eqn:Hloop;
    [|discriminate Hdone].
  injection Hdone as <-. exists c. split; [done|].
  apply bulk_loop_count in Hloop.
  pose proof (ticket_lines_length (py_splitlines raw)). lia.
Qed.

Lemma bulk_task_count_witness :
  ∃ count : nat,
    bulk_report 2 3 = bulk_report count
                        (length (py_splitlines (py "Milk::2l" ++ nl ++ nl
                                                ++ py "Eggs" ++ nl)))
    ∧ (count ≤ length (ticket_lines (py_splitlines (py "Milk::2l" ++ nl ++ nl
                                                     ++ py "Eggs" ++ nl)))
         ≤ length (py_splitlines (py "Milk::2l" ++ nl ++ nl
                                  ++ py "Eggs" ++ nl)))%nat.
Proof.
  apply (bulk_task_count plain_pillow (λ _, net_up) both_configured
           (λ _, clock_example) (JStr (py "::")) true true).
  vm_compute. reflexivity.
Defined.

Lemma bulk_loop_refused pil net app renv use_dt do_cut (lines : list pystr) :
  ∀ k count,
    ticket_lines lines ≠ [] →
    bulk_loop pil net app renv (JStr []) use_dt do_cut lines k count
    = (Raise ValueError, []).
Proof.
  induction lines as [|ln rest IH]; intros k count Hne; [done|].
  rewrite ticket_lines_cons in Hne. cbn [bulk_loop].
  destruct (py_truthy (py_strip ln)); cbn [negb].
  - assert (Ht : bulk_ticket (JStr []) ln = Raise ValueError)
      by (unfold bulk_ticket; by destruct ln).
    rewrite Ht. reflexivity.
  - by apply IH.
Qed.

(** X18. With an empty delimiter, a batch that holds at least one
    non-blank line stops with [ValueError] before any ticket is rendered
    or sent: no external call is made. *)
Theorem bulk_task_empty_delimiter (pil : Pillow) (net : nat → NetEnv)
    (app : settings) (renv : nat → RenderEnv) (use_dt do_cut : bool)
    (raw : pystr)
    (Hlines : ticket_lines (py_splitlines raw) ≠ []) :
  bulk_task pil net app renv (JStr []) use_dt do_cut raw
  = (Raise ValueError, []).
Proof.
  unfold bulk_task. by rewrite bulk_loop_refused.
Qed.

Lemma bulk_task_empty_delimiter_witness :
  bulk_task plain_pillow (λ _, net_up) both_configured (λ _, clock_example)
    (JStr []) true true (py "Milk")
  = (Raise ValueError, []).
Proof.
  apply bulk_task_empty_delimiter. vm_compute. discriminate.
Defined.

Lemma img_loop_count pil net app (opened : list (result Image)) :
  ∀ k count,
    ∃ c, outcome (img_loop pil net app opened k count) = Ret c
         ∧ (count ≤ c ≤ count + length opened)%nat.
Proof.
  induction opened as [|p rest IH]; intros k count.
  - exists count. split; [done|]. simpl. lia.
  - cbn [img_loop]. rewrite outcome_bind.
    match goal with
    | |- context [try_except ?body any_Exception ?h] =>
        assert (Hiter : ∃ c', outcome (try_except body any_Exception h) = Ret c'
                              ∧ (count ≤ c' ≤ S count)%nat)
    end.
    { destruct p as [source | e];
        [|exists count; split; [by run_effects | lia]].
      run_effects.
      destruct (render_composed_image pil source) as [img | e];
        [|exists count; split; [done | lia]].
      destruct (print_master pil (net k) app img true) as [[res | e] t].
      - exists (if py_contains (py "OK") res then S count else count).
        split; [done|]. destruct (py_contains _ _); lia.
      - exists count. split; [done | lia]. }
    destruct Hiter as (c' & -> & Hc').
    destruct (IH (S k) c') as (c & Hc & Hbound).
    exists c. split; [done|]. simpl length. lia.
Qed.

(** X19. The image batch task never raises, whatever happens while an
    image is opened, resized or sent: it always returns "c images
    printed", with c at most the number of selected images. *)
Theorem img_task_never_raises (pil : Pillow) (net : nat → NetEnv)
    (app : settings) (opened : list (result Image)) :
  ∃ count : nat,
    outcome (img_task pil net app opened) = Ret (img_report count)
    ∧ (count ≤ length opened)%nat.
Proof.
  destruct (img_loop_count pil net app opened 0 0) as (c & Hc & Hbound).
  exists c. split; [|lia].
  unfold img_task. rewrite outcome_bind, Hc. reflexivity.
Qed.

(** ** Which exceptions escape *)

Lemma render_composed_image_raises (pil : Pillow) (img : Image) (e : exn) :
  render_composed_image pil img = Raise e ↔ composed_raises pil img e.
Proof.
  unfold render_composed_image, composed_raises, resize.
  destruct (size img) as [w h]. cbn [fst snd].
  unfold PRINT_WIDTH_PX. change (576 <=? 0) with false. cbn [orb].
  destruct (Z.eqb_spec w 576) as [-> | Hw]; cbn [negb].
  { split; [discriminate|]. intros [[? _] | (_ & ? & _)]; [lia | done]. }
  destruct (Z.eqb_spec w 0) as [-> | Hw0].
  { split; [intros [= <-]; by left|]. intros [[_ ->] | (? & _)]; done. }
  destruct (Z.leb_spec (pil_scale pil h 576 w) 0) as [Hs | Hs].
  - split; [intros [= <-]; by right|].
    intros [[? _] | (_ & _ & _ & ->)]; done.
  - split; [discriminate|]. intros [[? _] | (_ & _ & ? & _)]; [done | lia].
Qed.

(** X20. An exception leaves [render_latex_image] in one situation only,
    and always then: the toolchain is not found, Matplotlib is present,
    and either the plot itself raises, or the plotted image cannot be
    composed: its width is zero (the ratio divides by zero), or its
    height scaled to the paper width is not positive (the resize raises
    [ValueError]).  Every failure of the LaTeX path proper, that of the
    resize of the page included, is turned into a receipt. *)
Theorem render_latex_image_raises_only_in_fallback (pil : Pillow)
    (env : TexEnv) (renv : RenderEnv) (latex_code title : pystr)
    (add_dt : bool) (e : exn) :
  outcome (render_latex_image pil env renv latex_code title add_dt) = Raise e
  ↔ toolchain_present env = false
    ∧ matplotlib_importable env = true
    ∧ (matplotlib_plot env (clean_markup latex_code) = Raise e
       ∨ ∃ img, matplotlib_plot env (clean_markup latex_code) = Ret img
                ∧ composed_raises pil img e).
Proof.
  unfold render_latex_image, toolchain_present.
  rewrite check_pdflatex_outcome.
  destruct (pdf2image_found env && compiler_present env) eqn:Htool.
  - split; [|by intros [? _]].
    intros Hraise. exfalso. revert Hraise.
    destruct (render_with_pdflatex pil env latex_code) as [[img | e'] t];
      run_effects; rewrite Htool; [|discriminate].
    destruct (size img) as [w h].
    destruct (PRINT_WIDTH_PX - MARGIN_L - MARGIN_R <? w);
      [unfold resize; destruct ((_ <=? 0) || (_ <=? 0))|];
      destruct (py_truthy title), add_dt; discriminate.
  - run_effects. rewrite Htool. unfold render_matplotlib_fallback.
    destruct (matplotlib_importable env); cbn [negb]; run_effects.
    2: { split; [discriminate|]. by intros (_ & ? & _). }
    destruct (matplotlib_plot env (clean_markup latex_code)) as [img | e'].
    + destruct (render_composed_image pil img) as [out | e''] eqn:Hc.
      * split; [discriminate|].
        intros (_ & _ & [Hp | (img' & [= <-] & Hr)]); [discriminate Hp|].
        apply render_composed_image_raises in Hr. congruence.
      * split.
        -- intros [= <-]. split; [done|]. split; [done|]. right.
           exists img. split; [done|]. by apply render_composed_image_raises.
        -- intros (_ & _ & [Hp | (img' & [= <-] & Hr)]); [discriminate Hp|].
           apply render_composed_image_raises in Hr. congruence.
    + split.
      * intros [= <-]. split; [done|]. split; [done|]. by left.
      * intros (_ & _ & [[= <-] | (img' & Hp & _)]); [done | discriminate Hp].
Qed.

(** X21. When [print_master] raises, no broker connection has been
    attempted.  Either the exception left the local path, from one of its
    steps and as no socket-level error, and only socket calls have been
    made; or local delivery was unavailable, the exception left one of
    the calls of the cloud path before its [try] block, and the calls made
    are the socket calls followed by a prefix of the set-up calls of the
    client.  In neither case has anything been published. *)
Theorem print_master_raises_before_connect (pil : Pillow) (env : NetEnv)
    (app : settings) (img : Image) (cut : bool) (e : exn)
    (Hraise : outcome (print_master pil env app img cut) = Raise e) :
  (lan_step_raises pil env app img cut e
   ∧ is_OSError e = false
   ∧ Forall (λ ev, is_lan_event ev = true)
       (trace (print_master pil env app img cut)))
  ∨ (lan_unavailable pil env app img cut
     ∧ cloud_setup_raises env app img e
     ∧ ∃ lan_calls setup_calls : list event,
         trace (print_master pil env app img cut) = lan_calls ++ setup_calls
         ∧ Forall (λ ev, is_lan_event ev = true) lan_calls
         ∧ setup_calls `prefix_of` client_setup_calls app).
Proof.
  destruct (send_lan_image_cases pil env app img cut) as (Hlc & _ & Hlf & Hlr).
  destruct (send_mqtt_image_cases pil env app img cut) as (_ & _ & Hcr & _).
  destruct (send_mqtt_image_trace pil env app img cut) as (Hpre & _).
  unfold print_master in *.
  destruct (send_lan_image pil env app img cut) as [r1 t1].
  destruct (send_mqtt_image pil env app img cut) as [r2 t2].
  unfold outcome, trace in *. cbn [fst snd] in *. revert Hraise.
  destruct r1 as [[|] | e1]; run_effects.
  - discriminate.
  - destruct r2 as [[|] | e2]; cbv beta iota zeta; try discriminate.
    intros [= <-]. right. split; [by apply Hlf|]. split; [by apply Hcr|].
    exists t1, t2. rewrite ?app_nil_r. split; [done|]. split; [done|].
    by apply (Hpre e2).
  - intros [= <-]. left. destruct (proj1 (Hlr e1) eq_refl) as [? ?].
    rewrite ?app_nil_r. done.
Qed.

Lemma print_master_raises_before_connect_witness :
  (lan_step_raises plain_pillow net_strict_client numeric_user
     (Mode1 black8) true (OtherException "AttributeError")
   ∧ is_OSError (OtherException "AttributeError") = false
   ∧ Forall (λ ev, is_lan_event ev = true)
       (trace (print_master plain_pillow net_strict_client numeric_user
                 (Mode1 black8) true)))
  ∨ (lan_unavailable plain_pillow net_strict_client numeric_user
       (Mode1 black8) true
     ∧ cloud_setup_raises net_strict_client numeric_user (Mode1 black8)
         (OtherException "AttributeError")
     ∧ ∃ lan_calls setup_calls : list event,
         trace (print_master plain_pillow net_strict_client numeric_user
                  (Mode1 black8) true)
           = lan_calls ++ setup_calls
         ∧ Forall (λ ev, is_lan_event ev = true) lan_calls
         ∧ setup_calls `prefix_of` client_setup_calls numeric_user).
Proof.
  apply (print_master_raises_before_connect plain_pillow net_strict_client
           numeric_user (Mode1 black8) true (OtherException "AttributeError")).
  vm_compute. reflexivity.
Defined.

(** ** The clean-up of section headers *)

Lemma shortest_to_brace_found (t b : pystr) :
  125%N ∉ t → 10%N ∉ t →
  shortest_to_brace (t ++ 125%N :: b) = Some (S (length t)).
Proof.
  induction t as [|c t IH]; intros Hb Hn; [done|].
  simpl. destruct (N.eqb_spec c 125) as [-> | _].
  { exfalso. apply Hb. by left. }
  destruct (N.eqb_spec c 10) as [-> | _].
  { exfalso. apply Hn. by left. }
  rewrite IH; [done | |]; intros H; [apply Hb | apply Hn]; by right.
Qed.

Lemma sub_section_skip (new x s : pystr) :
  sub_section_from new (length x) (x ++ s) = sub_section_from new 0 s.
Proof. induction x as [|c x IH]; [done|]. simpl. exact IH. Qed.

Lemma starts_with_head (c0 c : pychar) (rest s : pystr) :
  c0 ≠ c → starts_with (c0 :: rest) (c :: s) = false.
Proof. intros Hc. simpl. by destruct (N.eqb_spec c0 c). Qed.

Lemma sub_section_prefix (new a s : pystr) :
  92%N ∉ a →
  sub_section_from new 0 (a ++ s) = a ++ sub_section_from new 0 s.
Proof.
  induction a as [|c a IH]; intros Hc; [done|].
  change ((c :: a) ++ s) with (c :: (a ++ s)).
  cbn [sub_section_from]. unfold match_section.
  change (py "\section") with (92%N :: py "section").
  rewrite starts_with_head by (intros <-; apply Hc; by left).
  cbv iota. rewrite IH; [done|]. intros H. apply Hc. by right.
Qed.

Lemma match_section_header (starred : bool) (t b : pystr) :
  125%N ∉ t → 10%N ∉ t →
  match_section (py "\section" ++ (if starred then py "*" else [])
                 ++ py "{" ++ t ++ py "}" ++ b)
  = Some (length (py "\section" ++ (if starred then py "*" else [])
                  ++ py "{" ++ t ++ py "}")).
Proof.
  intros Hb Hn. unfold match_section.
  rewrite starts_with_app.
  change (drop 8 (py "\section" ++ ?x)) with x.
  destruct starred.
  - change (starts_with (py "*") (py "*" ++ ?x)) with true. cbv iota.
    change (drop 1 (py "*" ++ ?x)) with x.
    change (starts_with (py "{") (py "{" ++ ?x)) with true. cbv iota.
    change (drop 1 (py "{" ++ ?x)) with x.
    change (py "}" ++ b) with (125%N :: b).
    rewrite shortest_to_brace_found by done.
    simpl. f_equal. rewrite length_app. simpl. lia.
  - change (starts_with (py "*") ([] ++ py "{" ++ ?x)) with false. cbv iota.
    change (starts_with (py "{") ([] ++ py "{" ++ ?x)) with true. cbv iota.
    change (drop 1 ([] ++ py "{" ++ ?x)) with x.
    change (py "}" ++ b) with (125%N :: b).
    rewrite shortest_to_brace_found by done.
    simpl. f_equal. rewrite length_app. simpl. lia.
Qed.

(** X22. In the Matplotlib fallback a section header, starred or not,
    between plain text is replaced by the line "--- SECTION ---": the
    title of the section is dropped, the text around it is kept. *)
Theorem clean_markup_section (starred : bool) (a t b : pystr)
    (Ha : ∀ c, c ∈ a → c ≠ 36%N ∧ c ≠ 92%N)
    (Hb : ∀ c, c ∈ b → c ≠ 36%N ∧ c ≠ 92%N)
    (Ht : ∀ c, c ∈ t → c ≠ 36%N ∧ c ≠ 125%N ∧ c ≠ 10%N) :
  clean_markup (a ++ py "\section" ++ (if starred then py "*" else [])
                ++ py "{" ++ t ++ py "}" ++ b)
  = a ++ nl ++ py "--- SECTION ---" ++ nl ++ b.
Proof.
  set (header := py "\section" ++ (if starred then py "*" else [])
                 ++ py "{" ++ t ++ py "}").
  assert (Hin : a ++ py "\section" ++ (if starred then py "*" else [])
                ++ py "{" ++ t ++ py "}" ++ b = a ++ header ++ b).
  { unfold header. by rewrite <- !app_assoc. }
  rewrite Hin. clear Hin.
  assert (Ha92 : 92%N ∉ a) by (intros H; by destruct (Ha _ H)).
  assert (Hb92 : 92%N ∉ b) by (intros H; by destruct (Hb _ H)).
  assert (Ht125 : 125%N ∉ t) by (intros H; by destruct (Ht _ H) as (? & ? & ?)).
  assert (Ht10 : 10%N ∉ t) by (intros H; by destruct (Ht _ H) as (? & ? & ?)).
  assert (H36 : 36%N ∉ a ++ header ++ b).
  { unfold header. rewrite !elem_of_app. intros [H | [[H | [H | [H | [H | H]]]] | H]].
    - by destruct (Ha _ H).
    - vm_compute in H. member_cases H.
    - destruct starred; vm_compute in H; member_cases H.
    - vm_compute in H. member_cases H.
    - by destruct (Ht _ H).
    - vm_compute in H. member_cases H.
    - by destruct (Hb _ H). }
  unfold clean_markup, py_replace.
  change (py "$$") with (36%N :: py "$").
  rewrite replace_from_absent by done.
  rewrite sub_section_prefix by done.
  assert (Hsub : sub_section_from (nl ++ py "--- SECTION ---" ++ nl) 0 (header ++ b)
                 = (nl ++ py "--- SECTION ---" ++ nl) ++ b).
  { assert (Hm : match_section (header ++ b) = Some (length header)).
    { unfold header. rewrite <- !app_assoc.
      by apply match_section_header. }
    assert (Hcons : ∃ c rest, header = c :: rest).
    { unfold header. change (py "\section") with (92%N :: py "section").
      eauto. }
    destruct Hcons as (c & rest & Hheader). rewrite Hheader in *.
    change ((c :: rest) ++ b) with (c :: (rest ++ b)) in *.
    cbn [sub_section_from]. rewrite Hm. f_equal.
    simpl length. rewrite Nat.sub_succ, Nat.sub_0_r.
    rewrite sub_section_skip. by apply sub_section_absent. }
  rewrite Hsub.
  assert (H92 : 92%N ∉ a ++ (nl ++ py "--- SECTION ---" ++ nl) ++ b).
  { rewrite !elem_of_app. intros [H | [[H | [H | H]] | H]]; [done | | | | done];
      vm_compute in H; member_cases H. }
  change (py "\begin{itemize}") with (92%N :: py "begin{itemize}").
  rewrite replace_from_absent by done.
  change (py "\end{itemize}") with (92%N :: py "end{itemize}").
  rewrite replace_from_absent by done.
  change (py "\item") with (92%N :: py "item").
  rewrite replace_from_absent by done.
  by rewrite <- !app_assoc.
Qed.

Lemma clean_markup_section_witness :
  clean_markup (py "Intro \section{Setup} end")
  = py "Intro " ++ nl ++ py "--- SECTION ---" ++ nl ++ py " end".
Proof.
  apply (clean_markup_section false (py "Intro ") (py "Setup") (py " end"));
    apply Forall_forall; vm_compute; by repeat constructor.
Defined.

(** ** Batches without a transport *)

Lemma bulk_ticket_returns (d ln : pystr) :
  d ≠ [] → ∃ ticket, bulk_ticket (JStr d) ln = Ret ticket.
Proof.
  intros Hd. unfold bulk_ticket.
  destruct (py_contains d ln) eqn:Hin; [|eauto].
  destruct (split_first_spec d ln Hd Hin) as (t & b & -> & _).
  destruct d; [done | eauto].
Qed.

Lemma bulk_loop_no_transport pil net app renv (d : pystr) use_dt do_cut
    (lines : list pystr) :
  d ≠ [] →
  (∀ env img cut, print_master pil env app img cut = (Ret FAILED, [])) →
  ∀ k count,
    bulk_loop pil net app renv (JStr d) use_dt do_cut lines k count
    = (Ret count, []).
Proof.
  intros Hd Hpm. induction lines as [|ln rest IH]; intros k count; [done|].
  cbn [bulk_loop]. destruct (py_truthy (py_strip ln)); cbn [negb]; [|apply IH].
  destruct (bulk_ticket_returns d ln Hd) as [ticket ->].
  run_effects. rewrite Hpm. cbv beta iota.
  change (py_contains (py "OK") FAILED) with false. cbv iota.
  rewrite IH. reflexivity.
Qed.

Lemma img_loop_no_transport pil net app (opened : list (result Image)) :
  (∀ env img cut, print_master pil env app img cut = (Ret FAILED, [])) →
  ∀ k count, img_loop pil net app opened k count = (Ret count, []).
Proof.
  intros Hpm. induction opened as [|p rest IH]; intros k count; [done|].
  cbn [img_loop]. destruct p as [source | e].
  - run_effects.
    destruct (render_composed_image pil source) as [img | e].
    + rewrite Hpm. cbv beta iota.
      change (py_contains (py "OK") FAILED) with false. cbv iota.
      rewrite IH. reflexivity.
    + rewrite IH. reflexivity.
  - run_effects. rewrite IH. reflexivity.
Qed.

(** X23. With neither a printer address nor a broker host configured, a
    batch prints nothing and touches nothing: the text batch (with a
    non-empty delimiter) reports 0 of n lines, the image batch reports 0
    images, and neither makes a single external call. *)
Theorem batch_unconfigured (pil : Pillow) (net : nat → NetEnv)
    (app : settings) (renv : nat → RenderEnv) (d : pystr)
    (use_dt do_cut : bool) (raw : pystr) (opened : list (result Image))
    (Hd : d ≠ [])
    (Hip : json_truthy (printer_ip_of app) = false)
    (Hhost : json_truthy (mqtt_host_of app) = false) :
  bulk_task pil net app renv (JStr d) use_dt do_cut raw
    = (Ret (bulk_report 0 (length (py_splitlines raw))), [])
  ∧ img_task pil net app opened = (Ret (img_report 0), []).
Proof.
  assert (Hpm : ∀ env img cut,
             print_master pil env app img cut = (Ret FAILED, [])).
  { intros env img cut.
    unfold print_master, send_lan_image, send_mqtt_image,
      printer_ip_of, mqtt_host_of in *.
    rewrite Hip, Hhost. reflexivity. }
  split.
  - unfold bulk_task. by rewrite bulk_loop_no_transport.
  - unfold img_task. by rewrite img_loop_no_transport.
Qed.

Lemma batch_unconfigured_witness :
  bulk_task plain_pillow (λ _, net_up) DEFAULT_SETTINGS (λ _, clock_example)
      (JStr (py "::")) true true (py "Milk::2l" ++ nl ++ py "Eggs")
    = (Ret (bulk_report 0 2), [])
  ∧ img_task plain_pillow (λ _, net_up) DEFAULT_SETTINGS
      [Ret (Mode1 black8)]
    = (Ret (img_report 0), []).
Proof.
  apply (batch_unconfigured plain_pillow (λ _, net_up) DEFAULT_SETTINGS
           (λ _, clock_example) (py "::") true true
           (py "Milk::2l" ++ nl ++ py "Eggs") [Ret (Mode1 black8)]);
    [discriminate | vm_compute; reflexivity | vm_compute; reflexivity].
Defined.
